(** * DeePray: the training base class and the NFM model

    A shallow embedding of [deepray/base/base_trainable.py] and
    [deepray/model/model_nfm.py].

    Python values are modelled by the Rocq types the code uses them at:
    integers as [Z], float literals as binary64 [float]s, [str] as [string],
    [None]-able flags as [option], dictionaries as [gmap].  A call that can
    raise returns a [result]; objects of the ML framework (datasets,
    optimizers, losses, metrics, callbacks) are modelled by the constructor
    call that builds them, with the arguments the code passes, and building
    a dataset or a callback, compiling, fitting, making a directory and
    opening the log file can each raise. *)

From Stdlib Require Import ZArith List Ascii String PrimFloat.
From stdpp Require Import gmap strings list sorting pretty.
Import ListNotations.
Open Scope Z_scope.
Set Warnings "-inexact-float".

(** ** Exceptions and fallible computations *)

Inductive exn : Type :=
  | ValueError (msg : string)
  | NotImplementedError (msg : string)
  | KeyError (key : string)
  | IndexError
  | AttributeError (attr : string)
  | TypeError (msg : string)
  | FileNotFoundError (path : string)
  | FileExistsError (path : string).

Inductive result (A : Type) : Type :=
  | Ok (a : A)
  | Raise (e : exn).
Arguments Ok {A} a.
Arguments Raise {A} e.

#[export] Instance result_ret : MRet result := @Ok.
#[export] Instance result_bind : MBind result :=
  fun A B f m => match m with Ok a => f a | Raise e => Raise e end.

Definition returns_value {A} (r : result A) : Prop := exists a, r = Ok a.

Definition raises_not_implemented {A} (r : result A) : Prop :=
  exists msg, r = Raise (NotImplementedError msg).

Definition raises_value_error {A} (r : result A) : Prop :=
  exists msg, r = Raise (ValueError msg).

(** [needle] occurs in [hay]. *)
Definition mentions (hay needle : string) : Prop :=
  exists pre post, hay = pre +:+ needle +:+ post.

(** [l[i]] on a Python list, negative indices counting from the end. *)
Definition getitem {A} (l : list A) (i : Z) : result A :=
  let n := Z.of_nat (length l) in
  let j := if i <? 0 then i + n else i in
  if (j <? 0) || (n <=? j) then Raise IndexError
  else match l !! Z.to_nat j with
       | Some x => Ok x
       | None => Raise IndexError
       end.

(** [range(n)] *)
Definition range (n : nat) : list Z := map Z.of_nat (seq 0 n).

(** ** Flags

    The flags this module declares with [flags.DEFINE_*], in declaration
    order, followed by the two flags the code reads that are declared in
    other modules of the package ([learning_rate], [deep_layers]). *)

Record Flags : Type := mkFlags {
  gzip : bool;
  lr_schedule_flag : bool;
  optimizer : string;
  patient_valid_passes : option Z;
  profile_batch : option string;
  checkpoint_path : string;
  summaries_dir : string;
  train_data : option string;
  valid_data : option string;
  batch_size : Z;
  epochs : Z;
  parallel_parse : option Z;
  shuffle_buffer : Z;
  prefetch_buffer : Z;
  learning_rate : float;
  deep_layers : string
}.

(** The values the [DEFINE_*] calls give as defaults; [TIME_STAMP] is the
    start-up time, and the two foreign flags are given by the caller. *)
Definition declared_defaults (TIME_STAMP : string) (lr : float) (layers : string)
  : Flags :=
  {| gzip := false;
     lr_schedule_flag := false;
     optimizer := "lazyadam";
     patient_valid_passes := None;
     profile_batch := None;
     checkpoint_path := "summaries/" +:+ TIME_STAMP +:+ "/cpk/";
     summaries_dir := "summaries/" +:+ TIME_STAMP;
     train_data := None;
     valid_data := None;
     batch_size := 1;
     epochs := 1;
     parallel_parse := Some 8;
     shuffle_buffer := 512;
     prefetch_buffer := 4096;
     learning_rate := lr;
     deep_layers := layers |}.

Definition set_optimizer (name : string) (f : Flags) : Flags :=
  {| gzip := gzip f;
     lr_schedule_flag := lr_schedule_flag f;
     optimizer := name;
     patient_valid_passes := patient_valid_passes f;
     profile_batch := profile_batch f;
     checkpoint_path := checkpoint_path f;
     summaries_dir := summaries_dir f;
     train_data := train_data f;
     valid_data := valid_data f;
     batch_size := batch_size f;
     epochs := epochs f;
     parallel_parse := parallel_parse f;
     shuffle_buffer := shuffle_buffer f;
     prefetch_buffer := prefetch_buffer f;
     learning_rate := learning_rate f;
     deep_layers := deep_layers f |}.

(** The values [flags.DEFINE_enum("optimizer", ...)] admits. *)
Definition optimizer_enum_values : list string :=
  ["adam"; "adagrad"; "adadelta"; "lazyadam"; "sgd"; "RMSprop"; "ftrl"].

(** What the flag library does with a value given for an enum flag: it is
    kept when it is one of the declared values (compared case-sensitively)
    and refused otherwise. *)
Definition enum_parse (enum_values : list string) (argument : string)
  : result string :=
  if existsb (String.eqb argument) enum_values then Ok argument
  else Raise (ValueError ("value should be one of <" +:+
                          String.concat "|" enum_values +:+ ">")).

(** ** The learning-rate schedule *)

Definition LR_SCHEDULE : list (Z * float) :=
  (* (epoch to start, learning rate) tuples *)
  [ (3, 0.05%float); (6, 0.01%float); (9, 0.005%float); (12, 0.001%float) ].

(** The [for i in range(len(LR_SCHEDULE))] loop of [lr_schedule]; running
    off the end of the range reaches the final [return lr]. *)
Fixpoint lr_schedule_loop (epoch : Z) (lr : float) (indices : list Z)
  : result float :=
  match indices with
  | [] => Ok lr
  | i :: rest =>
      row ← getitem LR_SCHEDULE i;
      if epoch =? fst row then
        row' ← getitem LR_SCHEDULE i;
        Ok (snd row')
      else lr_schedule_loop epoch lr rest
  end.

(** [lr_schedule(self, epoch, lr)]; [self] is not used.  The [or] of the
    guard looks at the last row only when the first comparison fails. *)
Definition lr_schedule (epoch : Z) (lr : float) : result float :=
  first ← getitem LR_SCHEDULE 0;
  if epoch <? fst first then Ok lr
  else
    last ← getitem LR_SCHEDULE (-1);
    if epoch >? fst last then Ok lr
    else lr_schedule_loop epoch lr (range (length LR_SCHEDULE)).

(** ** Optimizers *)

Inductive optimizer_class : Type :=
  | Adam | Adadelta | Adagrad | LazyAdam | Ftrl | SGD | RMSprop.

(** An optimizer instance: its class and the [learning_rate] keyword it was
    constructed with. *)
Record Optimizer : Type := mkOptimizer {
  opt_class : optimizer_class;
  opt_learning_rate : float
}.

(** [build_optimizer(self)]; it reads [self.flags] only, which is the
    global [FLAGS] object. *)
Definition build_optimizer (FLAGS : Flags) : result Optimizer :=
  optimizer_cls ←
    (if String.eqb (optimizer FLAGS) "adam" then Ok Adam
     else if String.eqb (optimizer FLAGS) "adadelta" then Ok Adadelta
     else if String.eqb (optimizer FLAGS) "adagrad" then Ok Adagrad
     else if String.eqb (optimizer FLAGS) "lazyadam" then Ok LazyAdam
     else if String.eqb (optimizer FLAGS) "ftrl" then Ok Ftrl
     else if String.eqb (optimizer FLAGS) "sgd" then Ok SGD
     else if String.eqb (optimizer FLAGS) "RMSprop" then Ok RMSprop
     else Raise (ValueError ("--optimizer " +:+ optimizer FLAGS +:+
                             " was not found.")));
  Ok (mkOptimizer optimizer_cls (learning_rate FLAGS)).

(** The seven names [build_optimizer] compares the flag with, in the order
    of its branches. *)
Definition optimizer_names : list string :=
  ["adam"; "adadelta"; "adagrad"; "lazyadam"; "ftrl"; "sgd"; "RMSprop"].

(** ** Losses, metrics, datasets, callbacks

    Framework objects, each modelled by the constructor call that makes it. *)

Inductive Loss : Type :=
  | BinaryCrossentropy
  | SparseCategoricalCrossentropy.

Inductive Metric : Type :=
  | AUC
  | BinaryAccuracy
  | SparseCategoricalAccuracy.

(** The [num_parallel_calls] argument of [Dataset.map]. *)
Inductive parallel_calls : Type :=
  | AUTOTUNE
  | Calls (n : Z).

(** A [tf.data] dataset: the source and the operators applied to it, each
    operator holding the dataset it was called on.  [R] is the type of a
    serialized record and [E] of a parsed example. *)
Inductive Dataset (R E : Type) : Type :=
  | TFRecordDataset (filenames : list (option string))
                    (compression_type : option string)
  | Map (input : Dataset R E) (map_func : R -> result E)
        (num_parallel_calls : parallel_calls)
  | Shuffle (input : Dataset R E) (buffer_size : Z)
  | Repeat (input : Dataset R E) (count : Z)
  | Batch (input : Dataset R E) (batch_size : Z)
  | Prefetch (input : Dataset R E) (buffer_size : Z).
Arguments TFRecordDataset {R E} filenames compression_type.
Arguments Map {R E} input map_func num_parallel_calls.
Arguments Shuffle {R E} input buffer_size.
Arguments Repeat {R E} input count.
Arguments Batch {R E} input batch_size.
Arguments Prefetch {R E} input buffer_size.

Inductive operator : Type :=
  | op_map | op_shuffle | op_repeat | op_batch | op_prefetch.

(** The operators a dataset was built with, the first applied first. *)
Fixpoint operators {R E} (d : Dataset R E) : list operator :=
  match d with
  | TFRecordDataset _ _ => []
  | Map d' _ _ => operators d' ++ [op_map]
  | Shuffle d' _ => operators d' ++ [op_shuffle]
  | Repeat d' _ => operators d' ++ [op_repeat]
  | Batch d' _ => operators d' ++ [op_batch]
  | Prefetch d' _ => operators d' ++ [op_prefetch]
  end.

Inductive Callback : Type :=
  | TensorBoard (log_dir : string) (profile_batch : option string)
  | CSVLogger (filename : string) (append : bool) (separator : string)
  | LossAndErrorPrintingCallback
  | EarlyStopping (monitor : string) (patience : option Z) (mode : string)
                  (restore_best_weights : bool)
  | ModelCheckpoint (filepath : string) (save_weights_only : bool)
                    (monitor : string) (mode : string) (save_best_only : bool)
  | LearningRateScheduler (schedule : Z -> float -> result float).

(** ** The process around the class *)

(** What the class changes outside its own objects. *)
Record World : Type := mkWorld {
  tf_random_seed : option Z;
  environ : gmap string string;
  directories : gset string;
  absl_log_file : option (string * string);
  log : list string
}.

Definition with_seed (seed : Z) (w : World) : World :=
  mkWorld (Some seed) (environ w) (directories w) (absl_log_file w) (log w).
Definition with_environ (k v : string) (w : World) : World :=
  mkWorld (tf_random_seed w) (<[k := v]> (environ w)) (directories w)
          (absl_log_file w) (log w).
Definition add_directories (paths : list string) (w : World) : World :=
  mkWorld (tf_random_seed w) (environ w) (list_to_set paths ∪ directories w)
          (absl_log_file w) (log w).
Definition set_absl_log_file (program_name log_dir : string) (w : World)
  : World :=
  mkWorld (tf_random_seed w) (environ w) (directories w)
          (Some (program_name, log_dir)) (log w).
Definition logging_info (msg : string) (w : World) : World :=
  mkWorld (tf_random_seed w) (environ w) (directories w) (absl_log_file w)
          (log w ++ [msg]).

(** The directories above [rest], as the path is written: each non-empty
    prefix that ends just before a ['/'].  [prefix] is what was read. *)
Fixpoint path_ancestors (prefix rest : string) : list string :=
  match rest with
  | EmptyString => []
  | String c rest' =>
      (if Ascii.eqb c "/"%char && negb (String.eqb prefix "")
       then [prefix] else [])
      ++ path_ancestors (prefix +:+ String c EmptyString) rest'
  end.

(** ** The framework

    Types and operations the code takes from TensorFlow, Keras, the
    callbacks module, [os], [time] and the flag library, and does not
    define.  A constructor or call of the framework can refuse its
    arguments: each [_check] is what it raises then. *)

Class Framework : Type := {
  record : Type;
  example : Type;
  tensor : Type;
  KerasModel : Type;
  History : Type;
  tf_math_log : tensor -> tensor;
  tf_math_maximum : tensor -> tensor -> tensor;
  tf_constant : float -> tensor;
  (** the symbolic record on which [Dataset.map] runs [map_func] once, when
      the dataset is built *)
  traced_record : record;
  (** building a dataset node, for the outermost operator of the argument *)
  dataset_check : Dataset record example -> result unit;
  (** constructing a callback *)
  callback_check : Callback -> result unit;
  model_compile : KerasModel -> Optimizer -> Loss -> list Metric ->
                  result KerasModel;
  model_fit : KerasModel -> Dataset record example -> Dataset record example ->
              Z -> list Callback -> result History;
  time_strftime : string -> string;
  (** [flag_values_dict()], each value rendered by [str] *)
  flag_values_dict : Flags -> gmap string string;
  (** what the operating system refuses in [os.makedirs], beyond an empty
      or an existing path *)
  os_makedirs_check : string -> World -> result unit;
  (** opening the log file in [use_absl_log_file] *)
  absl_log_file_check : string -> string -> World -> result unit
}.

(** ['{:25}'.format(s)]: [s] padded on the right to 25 characters. *)
Definition format_25 (s : string) : string :=
  s +:+ String.concat "" (replicate (25 - String.length s)%nat " ").

Definition tab : string := String (Ascii.ascii_of_nat 9) "".

(** [sorted(d.items())]: the items by increasing key. *)
Definition item_le (a b : string * string) : Prop :=
  String.leb a.1 b.1 = true.

#[export] Instance item_le_dec : RelDecision item_le.
Proof. intros a b. unfold item_le. apply _. Defined.

Definition sorted_items (d : gmap string string) : list (string * string) :=
  merge_sort item_le (map_to_list d).

(** [d[k]] on a dictionary. *)
Definition dict_getitem {V} (d : gmap string V) (k : string) : result V :=
  match d !! k with
  | Some v => Ok v
  | None => Raise (KeyError k)
  end.

(** Reading an attribute that may not have been assigned yet. *)
Definition getattr {A} (name : string) (slot : option A) : result A :=
  match slot with
  | Some v => Ok v
  | None => Raise (AttributeError name)
  end.

(** Truth value of a [None]-able string and of a [None]-able integer. *)
Definition str_truthy (s : option string) : bool :=
  match s with
  | Some s' => negb (String.eqb s' "")
  | None => false
  end.
Definition int_truthy (n : option Z) : bool :=
  match n with
  | Some n' => negb (n' =? 0)
  | None => false
  end.

(** The tuple a subclass's [get_summary] returns. *)
Record Summary : Type := mkSummary {
  summary_LABEL : string;
  summary_CATEGORY_FEATURES : list string;
  summary_NUMERICAL_FEATURES : list string;
  summary_VOC_SIZE : gmap string Z;
  summary_VARIABLE_FEATURES : list string
}.

(** The exception a computation ends with, if it does. *)
Definition exception_of {A} (r : result A) : option exn :=
  match r with
  | Ok _ => None
  | Raise e => Some e
  end.

(** The methods [class BaseTrainable] defines, in the order of the file. *)
Inductive method : Type :=
  | m___init__
  | m_seed_everything
  | m_build_loss
  | m_get_summary
  | m_build_metrics
  | m_parser
  | m_tfrecord_pipeline
  | m_create_train_data_iterator
  | m_train
  | m__mylog
  | m_build_optimizer
  | m_lr_schedule.

#[export] Instance method_eq_dec : EqDecision method.
Proof. solve_decision. Defined.

(** ** class BaseTrainable *)

Section BaseTrainable.
Context `{fw : Framework}.

(** A class in the hierarchy below [BaseTrainable], as far as the methods
    here dispatch on it: the two class methods a subclass overrides and
    the [__init__] that [super().__init__(flags)] reaches. *)
Record PyClass : Type := mkClass {
  cls_get_summary : result Summary;
  cls_parser : record -> result example;
  cls_super_init : Flags -> result unit
}.

(** An instance.  [self.flags] is not a field: [__init__] binds it to the
    global [FLAGS] object, so a read of [self.flags] is a read of [FLAGS],
    which the methods take as an argument.  The attributes assigned last
    in [__init__], or after it, may be unassigned. *)
Record Self : Type := mkSelf {
  self_class : PyClass;
  self_batch_size : Z;
  max_patient_passes : option Z;
  LABEL : string;
  CATEGORY_FEATURES : list string;
  NUMERICAL_FEATURES : list string;
  VOC_SIZE : gmap string Z;
  VARIABLE_FEATURES : list string;
  metrics_object : option (list Metric);
  loss_object : option Loss;
  train_iterator : option (Dataset record example);
  valid_iterator : option (Dataset record example)
}.

Definition set_metrics_object (v : list Metric) (s : Self) : Self :=
  mkSelf (self_class s) (self_batch_size s) (max_patient_passes s) (LABEL s)
         (CATEGORY_FEATURES s) (NUMERICAL_FEATURES s) (VOC_SIZE s)
         (VARIABLE_FEATURES s) (Some v) (loss_object s)
         (train_iterator s) (valid_iterator s).
Definition set_loss_object (v : Loss) (s : Self) : Self :=
  mkSelf (self_class s) (self_batch_size s) (max_patient_passes s) (LABEL s)
         (CATEGORY_FEATURES s) (NUMERICAL_FEATURES s) (VOC_SIZE s)
         (VARIABLE_FEATURES s) (metrics_object s) (Some v)
         (train_iterator s) (valid_iterator s).
Definition set_train_iterator (v : Dataset record example) (s : Self) : Self :=
  mkSelf (self_class s) (self_batch_size s) (max_patient_passes s) (LABEL s)
         (CATEGORY_FEATURES s) (NUMERICAL_FEATURES s) (VOC_SIZE s)
         (VARIABLE_FEATURES s) (metrics_object s) (loss_object s)
         (Some v) (valid_iterator s).
Definition set_valid_iterator (v : Dataset record example) (s : Self) : Self :=
  mkSelf (self_class s) (self_batch_size s) (max_patient_passes s) (LABEL s)
         (CATEGORY_FEATURES s) (NUMERICAL_FEATURES s) (VOC_SIZE s)
         (VARIABLE_FEATURES s) (metrics_object s) (loss_object s)
         (train_iterator s) (Some v).

Definition seed_everything (seed : Z) (w : World) : World :=
  let w := with_seed seed w in
  with_environ "PYTHONHASHSEED" (pretty seed) w.

Definition build_loss (self : Self) : result Loss :=
  size ← dict_getitem (VOC_SIZE self) (LABEL self);
  if size =? 2 then Ok BinaryCrossentropy
  else Ok SparseCategoricalCrossentropy.

Definition get_summary : result Summary :=
  Raise (NotImplementedError
           "parser(called by tfrecord_pipeline): not implemented!").

Definition build_metrics (self : Self) : result (list Metric) :=
  let metrics := [] in
  size ← dict_getitem (VOC_SIZE self) (LABEL self);
  if size =? 2 then
    let metrics := metrics ++ [AUC] in
    let metrics := metrics ++ [BinaryAccuracy] in
    Ok metrics
  else
    let metrics := metrics ++ [SparseCategoricalAccuracy] in
    Ok metrics.

Definition parser (serialized : record) : result example :=
  Raise (NotImplementedError
           "parser(called by tfrecord_pipeline): not implemented!").

(** *** Building datasets

    A dataset node is built when the framework accepts it.  The source
    needs every file name to be a string, and [map] runs [map_func] once on
    the symbolic record, so that what [map_func] raises there is raised
    when the dataset is built. *)

Definition new_dataset (d : Dataset record example)
  : result (Dataset record example) :=
  _ ← dataset_check d; Ok d.

Definition is_None {A} (x : option A) : bool :=
  match x with None => true | Some _ => false end.

Definition new_TFRecordDataset (filenames : list (option string))
    (compression_type : option string) : result (Dataset record example) :=
  if existsb is_None filenames then
    Raise (ValueError
      "Attempt to convert a value (None) with an unsupported type (<class 'NoneType'>) to a Tensor.")
  else new_dataset (TFRecordDataset filenames compression_type).

Definition dataset_map (input : Dataset record example)
    (map_func : record -> result example)
    (num_parallel_calls : parallel_calls) : result (Dataset record example) :=
  _ ← map_func traced_record;
  new_dataset (Map input map_func num_parallel_calls).

Definition dataset_shuffle (input : Dataset record example) (buffer_size : Z) :=
  new_dataset (Shuffle input buffer_size).
Definition dataset_repeat (input : Dataset record example) (count : Z) :=
  new_dataset (Repeat input count).
Definition dataset_batch (input : Dataset record example) (batch_size : Z) :=
  new_dataset (Batch input batch_size).
Definition dataset_prefetch (input : Dataset record example) (buffer_size : Z) :=
  new_dataset (Prefetch input buffer_size).

Definition tfrecord_pipeline (cls : PyClass) (FLAGS : Flags)
    (tfrecord_files : option string) (batch_size epochs : Z)
    (shuffle : bool) : result (Dataset record example) :=
  let flags := FLAGS in
  dataset ← new_TFRecordDataset [tfrecord_files]
               (if gzip flags then Some "GZIP" else None);
  dataset ← dataset_map dataset (cls_parser cls)
               (match parallel_parse flags with
                | None => AUTOTUNE
                | Some n => Calls n
                end);
  dataset ←
    (if shuffle then dataset_shuffle dataset (shuffle_buffer flags)
     else Ok dataset);
  dataset ← dataset_repeat dataset epochs;
  dataset ← dataset_batch dataset batch_size;
  dataset ← dataset_prefetch dataset (prefetch_buffer flags);
  Ok dataset.

(** [create_train_data_iterator(self)]: the outcome and the object it
    leaves; an iterator is assigned once its pipeline has been built. *)
Definition create_train_data_iterator (FLAGS : Flags) (self : Self)
  : result unit * Self :=
  match tfrecord_pipeline (self_class self) FLAGS
          (train_data FLAGS) (batch_size FLAGS) 1 true with
  | Raise e => (Raise e, self)
  | Ok train_it =>
      let self := set_train_iterator train_it self in
      match tfrecord_pipeline (self_class self) FLAGS
              (valid_data FLAGS) (batch_size FLAGS) 1 false with
      | Raise e => (Raise e, self)
      | Ok valid_it => (Ok tt, set_valid_iterator valid_it self)
      end
  end.

(** *** Training *)

Definition new_callback (c : Callback) : result Callback :=
  _ ← callback_check c; Ok c.

(** The callback list of [train], built between [model.compile] and
    [model.fit]; each callback is constructed where the code constructs
    it. *)
Definition train_callbacks (FLAGS : Flags) : result (list Callback) :=
  tensorboard ← new_callback (TensorBoard (summaries_dir FLAGS) None);
  csv_logger ←
    new_callback (CSVLogger (summaries_dir FLAGS +:+ "/log.csv") true ",");
  printing ← new_callback LossAndErrorPrintingCallback;
  let callbacks := [tensorboard; csv_logger; printing] in
  callbacks ←
    (if str_truthy (profile_batch FLAGS) then
       tb_callback ←
         new_callback (TensorBoard (summaries_dir FLAGS) (profile_batch FLAGS));
       Ok (callbacks ++ [tb_callback])
     else Ok callbacks);
  callbacks ←
    (if int_truthy (patient_valid_passes FLAGS) then
       early_stopping ←
         new_callback (EarlyStopping "val_loss" (patient_valid_passes FLAGS)
                                     "min" true);
       Ok (callbacks ++ [early_stopping])
     else Ok callbacks);
  callbacks ←
    (if str_truthy (Some (checkpoint_path FLAGS)) then
       cp_callback ←
         new_callback (ModelCheckpoint (checkpoint_path FLAGS) true
                                       "val_loss" "auto" true);
       Ok (callbacks ++ [cp_callback])
     else Ok callbacks);
  callbacks ←
    (if lr_schedule_flag FLAGS then
       scheduler ← new_callback (LearningRateScheduler lr_schedule);
       Ok (callbacks ++ [scheduler])
     else Ok callbacks);
  Ok callbacks.

(** [train(self, model)]: the compiled model with the history [fit]
    returns, or the exception, and the object as the call leaves it. *)
Definition train (FLAGS : Flags) (self : Self) (model : KerasModel)
  : result (KerasModel * History) * Self :=
  match create_train_data_iterator FLAGS self with
  | (Raise e, self) => (Raise e, self)
  | (Ok _, self) =>
      (optimizer ← build_optimizer FLAGS;
       loss ← getattr "loss_object" (loss_object self);
       metrics ← getattr "metrics_object" (metrics_object self);
       model ← model_compile model optimizer loss metrics;
       callbacks ← train_callbacks FLAGS;
       train_it ← getattr "train_iterator" (train_iterator self);
       valid_it ← getattr "valid_iterator" (valid_iterator self);
       history ← model_fit model train_it valid_it (epochs FLAGS) callbacks;
       Ok (model, history),
       self)
  end.

Definition _mylog (r : tensor) : tensor :=
  tf_math_log (tf_math_maximum r (tf_constant 1e-18%float)).

(** *** Construction *)

Definition os_path_exists (path : string) (w : World) : bool :=
  bool_decide (path ∈ directories w).

(** [os.makedirs(path)]: the directory and those above it. *)
Definition os_makedirs (path : string) (w : World) : result World :=
  if String.eqb path "" then Raise (FileNotFoundError path)
  else if os_path_exists path w then Raise (FileExistsError path)
  else
    _ ← os_makedirs_check path w;
    Ok (add_directories (path_ancestors "" path ++ [path]) w).

Definition use_absl_log_file (program_name log_dir : string) (w : World)
  : result World :=
  _ ← absl_log_file_check program_name log_dir w;
  Ok (set_absl_log_file program_name log_dir w).

(** [if not os.path.exists(path): os.makedirs(path)] *)
Definition ensure_directory (path : string) (w : World) : result World :=
  if os_path_exists path w then Ok w else os_makedirs path w.

(** [__init__(self, flags)] of an instance of class [cls]: the result and
    the world it leaves, also when it raises. *)
Definition __init__ (cls : PyClass) (flags FLAGS : Flags) (w : World)
  : result Self * World :=
  match cls_super_init cls flags with
  | Raise e => (Raise e, w)
  | Ok _ =>
      let w := seed_everything 10 w in
      match ensure_directory (summaries_dir flags) w with
      | Raise e => (Raise e, w)
      | Ok w =>
          match use_absl_log_file "DeePray" (summaries_dir flags) w with
          | Raise e => (Raise e, w)
          | Ok w =>
              let w :=
                logging_info (" " +:+ time_strftime "%Y%m%d %H:%M:%S" +:+
                              " Initialize training") w in
              let w := logging_info (tab +:+ "tf.app.flags.FLAGS:") w in
              let w :=
                fold_left
                  (fun w item =>
                     logging_info
                       (tab +:+ format_25 item.1 +:+ "= " +:+ item.2) w)
                  (sorted_items (flag_values_dict FLAGS)) w in
              (summary ← cls_get_summary cls;
               let self :=
                 mkSelf cls (batch_size FLAGS) (patient_valid_passes FLAGS)
                        (summary_LABEL summary)
                        (summary_CATEGORY_FEATURES summary)
                        (summary_NUMERICAL_FEATURES summary)
                        (summary_VOC_SIZE summary)
                        (summary_VARIABLE_FEATURES summary)
                        None None None None in
               metrics ← build_metrics self;
               let self := set_metrics_object metrics self in
               loss ← build_loss self;
               Ok (set_loss_object loss self),
               w)
          end
      end
  end.

(** The class itself: its own [get_summary] and [parser], and [object]
    above it, whose [__init__] takes no argument. *)
Definition BaseTrainable : PyClass :=
  mkClass get_summary parser
    (fun _ => Raise (TypeError
       "object.__init__() takes exactly one argument (the instance to initialize)")).

(** *** Calls of the methods

    The methods the class defines, a call of each with its arguments, and
    the exception a call ends with, if any. *)

Inductive call : Type :=
  | call___init__ (cls : PyClass) (flags FLAGS : Flags) (w : World)
  | call_seed_everything (seed : Z) (w : World)
  | call_build_loss (self : Self)
  | call_get_summary
  | call_build_metrics (self : Self)
  | call_parser (serialized : record)
  | call_tfrecord_pipeline (cls : PyClass) (FLAGS : Flags)
      (tfrecord_files : option string) (batch_size epochs : Z)
      (shuffle : bool)
  | call_create_train_data_iterator (FLAGS : Flags) (self : Self)
  | call_train (FLAGS : Flags) (self : Self) (model : KerasModel)
  | call__mylog (r : tensor)
  | call_build_optimizer (FLAGS : Flags)
  | call_lr_schedule (epoch : Z) (lr : float).

Definition method_of (c : call) : method :=
  match c with
  | call___init__ _ _ _ _ => m___init__
  | call_seed_everything _ _ => m_seed_everything
  | call_build_loss _ => m_build_loss
  | call_get_summary => m_get_summary
  | call_build_metrics _ => m_build_metrics
  | call_parser _ => m_parser
  | call_tfrecord_pipeline _ _ _ _ _ _ => m_tfrecord_pipeline
  | call_create_train_data_iterator _ _ => m_create_train_data_iterator
  | call_train _ _ _ => m_train
  | call__mylog _ => m__mylog
  | call_build_optimizer _ => m_build_optimizer
  | call_lr_schedule _ _ => m_lr_schedule
  end.

Definition raised (c : call) : option exn :=
  match c with
  | call___init__ cls flags FLAGS w =>
      exception_of (fst (__init__ cls flags FLAGS w))
  | call_seed_everything seed w => exception_of (Ok (seed_everything seed w))
  | call_build_loss self => exception_of (build_loss self)
  | call_get_summary => exception_of get_summary
  | call_build_metrics self => exception_of (build_metrics self)
  | call_parser serialized => exception_of (parser serialized)
  | call_tfrecord_pipeline cls FLAGS files batch_size epochs shuffle =>
      exception_of
        (tfrecord_pipeline cls FLAGS files batch_size epochs shuffle)
  | call_create_train_data_iterator FLAGS self =>
      exception_of (fst (create_train_data_iterator FLAGS self))
  | call_train FLAGS self model => exception_of (fst (train FLAGS self model))
  | call__mylog r => exception_of (Ok (_mylog r))
  | call_build_optimizer FLAGS => exception_of (build_optimizer FLAGS)
  | call_lr_schedule epoch lr => exception_of (lr_schedule epoch lr)
  end.

(** A method is an unimplemented stub when every call of it, whatever the
    receiver and the arguments, raises [NotImplementedError]. *)
Definition unimplemented (m : method) : Prop :=
  forall c, method_of c = m ->
            exists msg, raised c = Some (NotImplementedError msg).

End BaseTrainable.

(** ** class NeuralFactorizationMachine(FactorizationMachine) *)

(** [s.split(',')] *)
Fixpoint split_comma (s : string) : list string :=
  match s with
  | EmptyString => [EmptyString]
  | String c rest =>
      if Ascii.eqb c ","%char then EmptyString :: split_comma rest
      else match split_comma rest with
           | head :: tail => String c head :: tail
           | [] => [String c EmptyString]
           end
  end.

Section NeuralFactorizationMachine.
(** Tensors and layers of the framework; a layer is called on a tensor. *)
Context {tensor Layer : Type}.
Variable layer_call : Layer -> tensor -> result tensor.
(** The built-in [int] on a string. *)
Variable int : string -> result Z.

(** The attributes of the model object that [build] and [build_network]
    read and assign. *)
Record NFM : Type := mkNFM {
  nfm_flags : Flags;
  B_Interaction_Layer : option Layer;
  Hidden_Layers : option Layer
}.

(** The two builders inherited from [FactorizationMachine]. *)
Variable build_fm : NFM -> result Layer.
Variable build_deep : NFM -> list Z -> result Layer.

Definition set_B_Interaction_Layer (l : Layer) (self : NFM) : NFM :=
  mkNFM (nfm_flags self) (Some l) (Hidden_Layers self).
Definition set_Hidden_Layers (l : Layer) (self : NFM) : NFM :=
  mkNFM (nfm_flags self) (B_Interaction_Layer self) (Some l).

(** [build(self, input_shape)]: the outcome and the object it leaves. *)
Definition build {S : Type} (self : NFM) (input_shape : S)
  : result unit * NFM :=
  match mapM int (split_comma (deep_layers (nfm_flags self))) with
  | Raise e => (Raise e, self)
  | Ok hidden =>
      match build_fm self with
      | Raise e => (Raise e, self)
      | Ok fm =>
          let self := set_B_Interaction_Layer fm self in
          match build_deep self hidden with
          | Raise e => (Raise e, self)
          | Ok deep => (Ok tt, set_Hidden_Layers deep self)
          end
      end
  end.

Definition build_network {T : Type} (self : NFM) (features : tensor)
    (is_training : option T) : result tensor :=
  b_interaction_layer ← getattr "B_Interaction_Layer" (B_Interaction_Layer self);
  logit ← layer_call b_interaction_layer features;
  hidden_layers ← getattr "Hidden_Layers" (Hidden_Layers self);
  logit ← layer_call hidden_layers logit;
  Ok logit.

End NeuralFactorizationMachine.

(** ** Concrete instances

    A small framework, a subclass and objects on which the definitions
    above can be run. *)

Definition set_epochs (n : Z) (f : Flags) : Flags :=
  {| gzip := gzip f;
     lr_schedule_flag := lr_schedule_flag f;
     optimizer := optimizer f;
     patient_valid_passes := patient_valid_passes f;
     profile_batch := profile_batch f;
     checkpoint_path := checkpoint_path f;
     summaries_dir := summaries_dir f;
     train_data := train_data f;
     valid_data := valid_data f;
     batch_size := batch_size f;
     epochs := n;
     parallel_parse := parallel_parse f;
     shuffle_buffer := shuffle_buffer f;
     prefetch_buffer := prefetch_buffer f;
     learning_rate := learning_rate f;
     deep_layers := deep_layers f |}.

Definition example_flags : Flags :=
  declared_defaults "20200101-000000" 0.001%float "32,16".

Definition set_data (train valid : option string) (f : Flags) : Flags :=
  {| gzip := gzip f;
     lr_schedule_flag := lr_schedule_flag f;
     optimizer := optimizer f;
     patient_valid_passes := patient_valid_passes f;
     profile_batch := profile_batch f;
     checkpoint_path := checkpoint_path f;
     summaries_dir := summaries_dir f;
     train_data := train;
     valid_data := valid;
     batch_size := batch_size f;
     epochs := epochs f;
     parallel_parse := parallel_parse f;
     shuffle_buffer := shuffle_buffer f;
     prefetch_buffer := prefetch_buffer f;
     learning_rate := learning_rate f;
     deep_layers := deep_layers f |}.

(** The defaults with the two data files given. *)
Definition training_flags : Flags :=
  set_data (Some "train.tfrecord") (Some "valid.tfrecord") example_flags.

(** A batch size, a shuffle buffer and a number of parallel calls must be
    positive, and a prefetch buffer not negative. *)
Definition example_dataset_check {R E} (d : Dataset R E) : result unit :=
  match d with
  | Map _ _ (Calls n) =>
      if n <=? 0 then Raise (ValueError "num_parallel_calls must be positive")
      else Ok tt
  | Batch _ n =>
      if n <=? 0 then Raise (ValueError "batch_size must be positive")
      else Ok tt
  | Shuffle _ n =>
      if n <=? 0 then Raise (ValueError "buffer_size must be positive")
      else Ok tt
  | Prefetch _ n =>
      if n <? 0 then Raise (ValueError "buffer_size must not be negative")
      else Ok tt
  | _ => Ok tt
  end.

(** A [profile_batch] must be made of digits and commas. *)
Definition digits_and_commas (s : string) : bool :=
  forallb (fun c => let n := nat_of_ascii c in
                    ((48 <=? n) && (n <=? 57) || (n =? 44))%nat)
          (list_ascii_of_string s).

Definition example_callback_check (c : Callback) : result unit :=
  match c with
  | TensorBoard _ (Some s) =>
      if digits_and_commas s then Ok tt
      else Raise (ValueError "profile_batch must be an integer or a range")
  | _ => Ok tt
  end.

(** Records are strings, examples their lengths, tensors integers, and a
    model counts the epochs it was fitted for. *)
Definition example_framework : Framework :=
  {| record := string;
     example := nat;
     tensor := Z;
     KerasModel := unit;
     History := Z;
     tf_math_log := fun x => x;
     tf_math_maximum := Z.max;
     tf_constant := fun _ => 0;
     traced_record := "";
     dataset_check := example_dataset_check;
     callback_check := example_callback_check;
     model_compile := fun m _ _ _ => Ok m;
     model_fit := fun _ _ _ epochs _ => Ok epochs;
     time_strftime := fun _ => "20200101 00:00:00";
     flag_values_dict := fun f =>
       {[ "optimizer" := optimizer f; "summaries_dir" := summaries_dir f ]};
     os_makedirs_check := fun _ _ => Ok tt;
     absl_log_file_check := fun _ _ _ => Ok tt |}.

Definition empty_world : World := mkWorld None ∅ ∅ None [].

(** A subclass that overrides [get_summary], below a base whose [__init__]
    accepts the flags, and an instance of it whose label has [size] values. *)
Definition binary_summary : Summary :=
  mkSummary "label" [] [] {[ "label" := 2 ]} [].

Definition subclass `{fw : Framework} : PyClass :=
  mkClass (Ok binary_summary) parser (fun _ => Ok tt).

Definition instance_of_size `{fw : Framework} (size : Z) : Self :=
  mkSelf subclass 1 None "label" [] [] {[ "label" := size ]} []
         None None None None.

(** A subclass with a parser of its own as well, and an instance of it as
    [__init__] leaves it for a binary label. *)
Definition example_class : @PyClass example_framework :=
  @mkClass example_framework (Ok binary_summary)
    (fun serialized : string => Ok (String.length serialized))
    (fun _ => Ok tt).

Definition example_instance : @Self example_framework :=
  @mkSelf example_framework example_class 1 None "label" [] []
    {[ "label" := 2 ]} [] (Some [AUC; BinaryAccuracy])
    (Some BinaryCrossentropy) None None.

(** [int] on a non-empty string of ASCII decimal digits. *)
Definition digit_value (c : ascii) : option Z :=
  let n := nat_of_ascii c in
  if ((48 <=? n) && (n <=? 57))%nat then Some (Z.of_nat (n - 48)) else None.

Fixpoint decimal_value (acc : Z) (s : string) : result Z :=
  match s with
  | EmptyString => Ok acc
  | String c rest =>
      match digit_value c with
      | Some d => decimal_value (10 * acc + d) rest
      | None => Raise (ValueError "invalid literal for int() with base 10")
      end
  end.

Definition example_int (s : string) : result Z :=
  match s with
  | EmptyString => Raise (ValueError "invalid literal for int() with base 10")
  | _ => decimal_value 0 s
  end.

(** Layers over integer tensors: a layer is the function it computes. *)
Definition example_layer_call (l : Z -> Z) (x : Z) : result Z := Ok (l x).

Definition example_nfm : @NFM (Z -> Z) := mkNFM example_flags None None.

Definition example_build_fm (self : @NFM (Z -> Z)) : result (Z -> Z) :=
  Ok (fun x => x * x).

Definition example_build_deep (self : @NFM (Z -> Z)) (hidden : list Z)
  : result (Z -> Z) :=
  Ok (fun x => x + foldr Z.add 0 hidden).

(** ** For the statements

    The callbacks [train] can pass and the schedule fed its own output. *)



(** The rate in force after [lr_schedule] has been called at the epochs
    [0 .. n-1] in turn, each call on the rate the one before returned. *)
Fixpoint lr_after (n : nat) (lr : float) : result float :=
  match n with
  | O => Ok lr
  | S k => lr' ← lr_after k lr; lr_schedule (Z.of_nat k) lr'
  end.

(** The step function the table describes: each rate holds from its epoch
    until the next row's. *)
Definition lr_step (epoch : Z) (lr : float) : float :=
  if epoch <? 3 then lr
  else if epoch <? 6 then 0.05%float
  else if epoch <? 9 then 0.01%float
  else if epoch <? 12 then 0.005%float
  else 0.001%float.

(** The number of commas in a string. *)
Fixpoint count_commas (s : string) : nat :=
  match s with
  | EmptyString => 0%nat
  | String c rest =>
      ((if Ascii.eqb c ","%char then 1 else 0) + count_commas rest)%nat
  end.

(** The line [__init__] logs for one flag. *)
Definition flag_line (item : string * string) : string :=
  tab +:+ format_25 item.1 +:+ "= " +:+ item.2.


(** An instance as [__init__] leaves it for a binary label. *)
Definition initialised_instance `{fw : Framework} : Self :=
  set_loss_object BinaryCrossentropy
    (set_metrics_object [AUC; BinaryAccuracy] (instance_of_size 2)).

(** * Properties *)

(** ** The definitions on concrete inputs *)

Example lr_schedule_at_6 : lr_schedule 6 0.3%float = Ok 0.01%float.
Proof. reflexivity. Qed.

Example lr_schedule_at_7 : lr_schedule 7 0.3%float = Ok 0.3%float.
Proof. reflexivity. Qed.

Example build_optimizer_default :
  build_optimizer example_flags = Ok (mkOptimizer LazyAdam 0.001%float).
Proof. reflexivity. Qed.

Example build_optimizer_capitalised :
  build_optimizer (set_optimizer "Adam" example_flags)
  = Raise (ValueError "--optimizer Adam was not found.").
Proof. reflexivity. Qed.

Example split_comma_trailing : split_comma "32,16," = ["32"; "16"; ""].
Proof. reflexivity. Qed.

Example init_log :
  log (snd (@__init__ example_framework subclass example_flags example_flags
                      empty_world))
  = [ " 20200101 00:00:00 Initialize training";
      tab +:+ "tf.app.flags.FLAGS:";
      tab +:+ "optimizer                = lazyadam";
      tab +:+ "summaries_dir            = summaries/20200101-000000" ].
Proof. vm_compute. reflexivity. Qed.

Example init_then_train :
  (self ← fst (__init__ example_class training_flags training_flags
                        empty_world);
   fst (@train example_framework training_flags self tt))
  = Ok (tt, 1).
Proof. vm_compute. reflexivity. Qed.

Example pipeline_of_defaults :
  raises_value_error
    (@tfrecord_pipeline example_framework example_class example_flags
       (train_data example_flags) (batch_size example_flags) 1 true).
Proof. eexists. reflexivity. Qed.

Example pipeline_of_base_class :
  raises_not_implemented
    (@tfrecord_pipeline example_framework BaseTrainable training_flags
       (train_data training_flags) (batch_size training_flags) 1 true).
Proof. eexists. reflexivity. Qed.

Example train_of_defaults :
  raises_value_error
    (fst (@train example_framework example_flags example_instance tt)).
Proof. eexists. reflexivity. Qed.

Example callbacks_with_bad_profile_batch :
  raises_value_error
    (@train_callbacks example_framework
       (mkFlags false false "lazyadam" None (Some "abc") "cpk" "summaries"
                (Some "train.tfrecord") (Some "valid.tfrecord") 1 1 (Some 8)
                512 4096 0.001%float "32")).
Proof. eexists. reflexivity. Qed.

Example pipeline_with_batch_size_0 :
  raises_value_error
    (@tfrecord_pipeline example_framework example_class training_flags
       (Some "train.tfrecord") 0 1 true).
Proof. eexists. reflexivity. Qed.

Example init_without_directory_name :
  fst (__init__ example_class
         (mkFlags false false "lazyadam" None None "cpk" "" None None 1 1
                  (Some 8) 512 4096 0.001%float "32")
         training_flags empty_world)
  = Raise (FileNotFoundError "").
Proof. reflexivity. Qed.

Example init_makes_parents :
  directories
    (snd (__init__ example_class training_flags training_flags empty_world))
  = {[ "summaries"; "summaries/20200101-000000" ]}.
Proof. vm_compute. reflexivity. Qed.

(** ** The learning-rate schedule *)

Lemma getitem_first : getitem LR_SCHEDULE 0 = Ok (3, 0.05%float).
Proof. reflexivity. Qed.

Lemma getitem_last : getitem LR_SCHEDULE (-1) = Ok (12, 0.001%float).
Proof. reflexivity. Qed.

(** Outside the table's range the early [return lr] is taken. *)
Lemma lr_schedule_outside (epoch : Z) (lr : float) :
  epoch < 3 \/ epoch > 12 -> lr_schedule epoch lr = Ok lr.
Proof.
  intros Hout. unfold lr_schedule.
  rewrite getitem_first. cbn [mbind result_bind fst].
  destruct (Z.ltb_spec epoch 3) as [Hlt | Hge]; [reflexivity |].
  rewrite getitem_last. cbn [mbind result_bind fst].
  destruct Hout as [Hlt | Hgt]; [lia |].
  rewrite (proj2 (Z.gtb_gt epoch 12)) by lia. reflexivity.
Qed.

(** One turn of the loop at an index that is in range. *)
Lemma lr_schedule_loop_step (epoch : Z) (lr : float) (i : Z) (rest : list Z)
    (row : Z * float) :
  getitem LR_SCHEDULE i = Ok row ->
  lr_schedule_loop epoch lr (i :: rest) =
    if epoch =? fst row then Ok (snd row)
    else lr_schedule_loop epoch lr rest.
Proof. intros Hrow. cbn [lr_schedule_loop]. rewrite Hrow. reflexivity. Qed.

(** Inside the range the loop decides, and it only ever leaves through a
    row whose epoch is the one asked for. *)
Lemma lr_schedule_loop_miss (epoch : Z) (lr : float) :
  epoch <> 3 -> epoch <> 6 -> epoch <> 9 -> epoch <> 12 ->
  lr_schedule_loop epoch lr (range (length LR_SCHEDULE)) = Ok lr.
Proof.
  intros H3 H6 H9 H12.
  change (range (length LR_SCHEDULE)) with [0; 1; 2; 3].
  rewrite (lr_schedule_loop_step _ _ 0 _ (3, 0.05%float) eq_refl).
  rewrite (lr_schedule_loop_step _ _ 1 _ (6, 0.01%float) eq_refl).
  rewrite (lr_schedule_loop_step _ _ 2 _ (9, 0.005%float) eq_refl).
  rewrite (lr_schedule_loop_step _ _ 3 _ (12, 0.001%float) eq_refl).
  cbn [fst snd lr_schedule_loop].
  rewrite (proj2 (Z.eqb_neq epoch 3)) by assumption.
  rewrite (proj2 (Z.eqb_neq epoch 6)) by assumption.
  rewrite (proj2 (Z.eqb_neq epoch 9)) by assumption.
  rewrite (proj2 (Z.eqb_neq epoch 12)) by assumption.
  reflexivity.
Qed.

(** C1: at each of the four epochs of the table (3, 6, 9, 12)
    [lr_schedule] returns the table's rate for it (0.05, 0.01, 0.005,
    0.001), and for an epoch below 3 or above 12 it returns the rate it was
    given, whatever that rate is. *)
Theorem lr_schedule_table_and_outside (epoch : Z) (lr : float) :
  (epoch = 3 -> lr_schedule epoch lr = Ok 0.05%float) /\
  (epoch = 6 -> lr_schedule epoch lr = Ok 0.01%float) /\
  (epoch = 9 -> lr_schedule epoch lr = Ok 0.005%float) /\
  (epoch = 12 -> lr_schedule epoch lr = Ok 0.001%float) /\
  (epoch < 3 \/ epoch > 12 -> lr_schedule epoch lr = Ok lr).
Proof.
  repeat split; try (intros ->; reflexivity).
  apply lr_schedule_outside.
Qed.

Lemma lr_schedule_table_and_outside_witness :
  lr_schedule 3 0.3%float = Ok 0.05%float /\
  lr_schedule 6 0.3%float = Ok 0.01%float /\
  lr_schedule 9 0.3%float = Ok 0.005%float /\
  lr_schedule 12 0.3%float = Ok 0.001%float /\
  lr_schedule 2 0.3%float = Ok 0.3%float /\
  lr_schedule 13 0.3%float = Ok 0.3%float.
Proof.
  pose proof (lr_schedule_table_and_outside 3 0.3%float) as (H3 & _).
  pose proof (lr_schedule_table_and_outside 6 0.3%float) as (_ & H6 & _).
  pose proof (lr_schedule_table_and_outside 9 0.3%float) as (_ & _ & H9 & _).
  pose proof (lr_schedule_table_and_outside 12 0.3%float)
    as (_ & _ & _ & H12 & _).
  pose proof (lr_schedule_table_and_outside 2 0.3%float)
    as (_ & _ & _ & _ & Hlow).
  pose proof (lr_schedule_table_and_outside 13 0.3%float)
    as (_ & _ & _ & _ & Hhigh).
  exact (conj (H3 eq_refl) (conj (H6 eq_refl) (conj (H9 eq_refl)
           (conj (H12 eq_refl)
              (conj (Hlow (or_introl eq_refl)) (Hhigh (or_intror eq_refl))))))).
Defined.

(** C10: for every epoch that is none of 3, 6, 9 and 12, so also for
    those strictly inside the table's range (4, 5, 7, 8, 10, 11),
    [lr_schedule] returns the rate it was given. *)
Theorem lr_schedule_identity_off_table (epoch : Z) (lr : float) :
  ~ In epoch [3; 6; 9; 12] -> lr_schedule epoch lr = Ok lr.
Proof.
  intros Hnot. unfold lr_schedule.
  rewrite getitem_first. cbn [fst mbind result_bind].
  destruct (epoch <? 3); [reflexivity |].
  rewrite getitem_last. cbn [fst mbind result_bind].
  destruct (epoch >? 12); [reflexivity |].
  apply lr_schedule_loop_miss; intros ->; apply Hnot; cbn; tauto.
Qed.

Lemma lr_schedule_identity_off_table_witness :
  lr_schedule 4 0.3%float = Ok 0.3%float /\
  lr_schedule 11 0.3%float = Ok 0.3%float /\
  lr_schedule 0 0.3%float = Ok 0.3%float /\
  lr_schedule 40 0.3%float = Ok 0.3%float.
Proof.
  split; [| split; [| split]];
    apply lr_schedule_identity_off_table; cbn; lia.
Defined.

(** ** Optimizers *)

(** C2: for each of the seven optimizer names as the value of the
    [optimizer] flag, [build_optimizer] returns an instance of the class of
    that name, constructed with the [learning_rate] flag as its
    [learning_rate]. *)
Theorem build_optimizer_named (FLAGS : Flags) :
  let built c := build_optimizer FLAGS = Ok (mkOptimizer c (learning_rate FLAGS)) in
  (optimizer FLAGS = "adam" -> built Adam) /\
  (optimizer FLAGS = "adadelta" -> built Adadelta) /\
  (optimizer FLAGS = "adagrad" -> built Adagrad) /\
  (optimizer FLAGS = "lazyadam" -> built LazyAdam) /\
  (optimizer FLAGS = "ftrl" -> built Ftrl) /\
  (optimizer FLAGS = "sgd" -> built SGD) /\
  (optimizer FLAGS = "RMSprop" -> built RMSprop).
Proof.
  cbv zeta. unfold build_optimizer.
  repeat apply conj; intros ->; reflexivity.
Qed.

Lemma build_optimizer_named_witness :
  let flags name := set_optimizer name (declared_defaults "t" 0.001%float "32") in
  let built name c :=
    build_optimizer (flags name) = Ok (mkOptimizer c 0.001%float) in
  built "adam" Adam /\ built "adadelta" Adadelta /\ built "adagrad" Adagrad /\
  built "lazyadam" LazyAdam /\ built "ftrl" Ftrl /\ built "sgd" SGD /\
  built "RMSprop" RMSprop.
Proof.
  intros flags built.
  pose proof (build_optimizer_named (flags "adam")) as (H1 & _).
  pose proof (build_optimizer_named (flags "adadelta")) as (_ & H2 & _).
  pose proof (build_optimizer_named (flags "adagrad")) as (_ & _ & H3 & _).
  pose proof (build_optimizer_named (flags "lazyadam"))
    as (_ & _ & _ & H4 & _).
  pose proof (build_optimizer_named (flags "ftrl"))
    as (_ & _ & _ & _ & H5 & _).
  pose proof (build_optimizer_named (flags "sgd"))
    as (_ & _ & _ & _ & _ & H6 & _).
  pose proof (build_optimizer_named (flags "RMSprop"))
    as (_ & _ & _ & _ & _ & _ & H7).
  exact (conj (H1 eq_refl) (conj (H2 eq_refl) (conj (H3 eq_refl)
           (conj (H4 eq_refl) (conj (H5 eq_refl)
              (conj (H6 eq_refl) (H7 eq_refl))))))).
Defined.

(** A flag value that is none of the seven names fails every comparison. *)
Lemma eqb_name_miss (s name : string) :
  ~ In s optimizer_names -> In name optimizer_names -> String.eqb s name = false.
Proof.
  intros Hnot Hin. apply String.eqb_neq. intros ->. exact (Hnot Hin).
Qed.

(** C3: for every value of the [optimizer] flag that is none of the seven
    names, [build_optimizer] raises a [ValueError], and its message,
    ["--optimizer <value> was not found."], contains the value. *)
Theorem build_optimizer_unrecognized (FLAGS : Flags) :
  ~ In (optimizer FLAGS) optimizer_names ->
  build_optimizer FLAGS =
    Raise (ValueError ("--optimizer " +:+ optimizer FLAGS +:+ " was not found."))
  /\ mentions ("--optimizer " +:+ optimizer FLAGS +:+ " was not found.")
              (optimizer FLAGS).
Proof.
  intros Hnot. split.
  - unfold build_optimizer.
    rewrite !(eqb_name_miss _ _ Hnot) by (cbn; tauto).
    reflexivity.
  - exists "--optimizer ", " was not found.". reflexivity.
Qed.

Lemma build_optimizer_unrecognized_witness :
  build_optimizer (set_optimizer "Adam" (declared_defaults "t" 0.001%float "32"))
  = Raise (ValueError "--optimizer Adam was not found.")
  /\ mentions "--optimizer Adam was not found." "Adam".
Proof.
  apply (build_optimizer_unrecognized
           (set_optimizer "Adam" (declared_defaults "t" 0.001%float "32"))).
  cbn. intros H. decompose [or] H; try discriminate. assumption.
Defined.

(** What the flag library lets through for the [optimizer] flag is one of
    the seven names. *)
Lemma enum_parse_In (values : list string) (v v' : string) :
  enum_parse values v = Ok v' -> v' = v /\ In v values.
Proof.
  unfold enum_parse. destruct (existsb (String.eqb v) values) eqn:E; [| discriminate].
  intros [= <-]. split; [reflexivity |].
  apply existsb_exists in E as (x & Hx & Heq).
  apply String.eqb_eq in Heq. subst x. exact Hx.
Qed.

(** C8: the [optimizer] flag is declared as an enum over exactly the seven
    names, so for a flag value that passed the flag library's validation
    [build_optimizer] returns an optimizer and does not raise [ValueError]. *)
Theorem build_optimizer_validated (FLAGS : Flags) (argument : string) :
  enum_parse optimizer_enum_values argument = Ok (optimizer FLAGS) ->
  returns_value (build_optimizer FLAGS) /\
  ~ raises_value_error (build_optimizer FLAGS).
Proof.
  intros Hparse. apply enum_parse_In in Hparse as (Heq & Hin).
  assert (Hok : returns_value (build_optimizer FLAGS)).
  { subst argument. unfold returns_value, build_optimizer. cbn in Hin.
    decompose [or] Hin; try contradiction;
      match goal with E : _ = optimizer FLAGS |- _ => rewrite <- E end;
      eexists; reflexivity. }
  split; [exact Hok |].
  destruct Hok as (o & Ho). intros (msg & Hmsg). congruence.
Qed.

Lemma build_optimizer_validated_witness :
  returns_value (build_optimizer (declared_defaults "t" 0.001%float "32")) /\
  ~ raises_value_error (build_optimizer (declared_defaults "t" 0.001%float "32")).
Proof.
  apply (build_optimizer_validated (declared_defaults "t" 0.001%float "32")
                                   "lazyadam").
  reflexivity.
Defined.

(** The enum's values and the names of the branches are the same seven. *)
Lemma optimizer_enum_is_names (s : string) :
  In s optimizer_enum_values <-> In s optimizer_names.
Proof. cbn. tauto. Qed.

(** ** Losses and metrics *)

(** C4: [build_loss] and [build_metrics] take the binary branch exactly
    when [VOC_SIZE[LABEL]] is two: then the loss is [BinaryCrossentropy]
    and the metrics are [[AUC, BinaryAccuracy]]; for every other
    cardinality the loss is [SparseCategoricalCrossentropy] and the metrics
    are [[SparseCategoricalAccuracy]]. *)
Theorem build_loss_metrics_branch `{fw : Framework} (self : Self) (size : Z) :
  VOC_SIZE self !! LABEL self = Some size ->
  (size = 2 ->
     build_loss self = Ok BinaryCrossentropy /\
     build_metrics self = Ok [AUC; BinaryAccuracy]) /\
  (size <> 2 ->
     build_loss self = Ok SparseCategoricalCrossentropy /\
     build_metrics self = Ok [SparseCategoricalAccuracy]) /\
  (build_loss self = Ok BinaryCrossentropy <-> size = 2) /\
  (build_metrics self = Ok [AUC; BinaryAccuracy] <-> size = 2).
Proof.
  intros Hsize. unfold build_loss, build_metrics, dict_getitem.
  rewrite Hsize. cbn.
  destruct (Z.eqb_spec size 2) as [-> | Hne]; cbn.
  - split_and!; try split; intros; congruence.
  - split_and!; try split; intros; congruence.
Qed.

Lemma build_loss_metrics_branch_witness :
  let self size := @instance_of_size example_framework size in
  (build_loss (self 2) = Ok BinaryCrossentropy /\
   build_metrics (self 2) = Ok [AUC; BinaryAccuracy]) /\
  (build_loss (self 5) = Ok SparseCategoricalCrossentropy /\
   build_metrics (self 5) = Ok [SparseCategoricalAccuracy]).
Proof.
  intros self.
  pose proof (build_loss_metrics_branch (self 2) 2 eq_refl) as (Hbin & _).
  pose proof (build_loss_metrics_branch (self 5) 5 eq_refl)
    as (_ & Hmulti & _).
  exact (conj (Hbin eq_refl) (Hmulti ltac:(discriminate))).
Defined.

(** ** The input pipeline *)

Section Pipeline.
Context `{fw : Framework}.

Lemma new_dataset_inv (d d' : Dataset record example) :
  new_dataset d = Ok d' -> d' = d /\ dataset_check d = Ok tt.
Proof.
  unfold new_dataset. destruct (dataset_check d) as [[] |]; cbn;
    [| discriminate].
  intros [= <-]. auto.
Qed.

(** A pipeline that was built is the source under the operators, and on
    the way the file was a string and the parser ran on the symbolic
    record. *)
Lemma tfrecord_pipeline_inv (cls : PyClass) (FLAGS : Flags)
    (tfrecord_files : option string) (batch_size epochs : Z) (shuffle : bool)
    (dataset : Dataset record example) :
  tfrecord_pipeline cls FLAGS tfrecord_files batch_size epochs shuffle
  = Ok dataset ->
  let mapped :=
    Map (TFRecordDataset [tfrecord_files]
                         (if gzip FLAGS then Some "GZIP" else None))
        (cls_parser cls)
        (match parallel_parse FLAGS with
         | Some degree => Calls degree
         | None => AUTOTUNE
         end) in
  dataset =
    Prefetch (Batch (Repeat (if shuffle
                             then Shuffle mapped (shuffle_buffer FLAGS)
                             else mapped) epochs) batch_size)
             (prefetch_buffer FLAGS)
  /\ is_Some tfrecord_files
  /\ returns_value (cls_parser cls traced_record).
Proof.
  unfold tfrecord_pipeline, new_TFRecordDataset, dataset_map, dataset_shuffle,
    dataset_repeat, dataset_batch, dataset_prefetch, new_dataset.
  destruct tfrecord_files as [file |]; cbn [existsb is_None orb];
    [| discriminate].
  destruct (cls_parser cls traced_record) as [parsed |] eqn:Hparsed.
  2: { destruct (dataset_check _) as [[] |]; cbn; discriminate. }
  destruct shuffle; cbn [mbind result_bind];
    repeat match goal with
           | |- context [dataset_check ?d] =>
               destruct (dataset_check d) as [[] |];
               cbn [mbind result_bind]; [| discriminate]
           end;
    intros [= <-]; destruct (parallel_parse FLAGS);
    (split_and!; [reflexivity | by eexists | by eexists]).
Qed.

(** [create_train_data_iterator] runs the two pipelines one after the
    other, with 1 for [epochs], and assigns each iterator once its
    pipeline is built. *)
Lemma create_train_data_iterator_inv (FLAGS : Flags) (self self' : Self) :
  create_train_data_iterator FLAGS self = (Ok tt, self') ->
  exists train_it valid_it,
    tfrecord_pipeline (self_class self) FLAGS (train_data FLAGS)
                      (batch_size FLAGS) 1 true = Ok train_it /\
    tfrecord_pipeline (self_class self) FLAGS (valid_data FLAGS)
                      (batch_size FLAGS) 1 false = Ok valid_it /\
    self' = set_valid_iterator valid_it (set_train_iterator train_it self).
Proof.
  unfold create_train_data_iterator.
  destruct (tfrecord_pipeline _ _ (train_data FLAGS) _ _ _) as [train_it |];
    [| discriminate].
  cbn [self_class set_train_iterator].
  destruct (tfrecord_pipeline _ _ (valid_data FLAGS) _ _ _) as [valid_it |];
    [| discriminate].
  intros [= <-]. eauto.
Qed.

End Pipeline.

(** C6: for every file argument, batch size and epoch count, the dataset
    [tfrecord_pipeline] returns with [shuffle=True] is the record source
    followed by five operators in this order: [map] (the class's parser,
    with the [parallel_parse] flag as its degree, or [AUTOTUNE] when that
    flag is [None]), [shuffle] ([shuffle_buffer]), [repeat] ([epochs]),
    [batch] ([batch_size]) and [prefetch] ([prefetch_buffer]); with
    [shuffle=False] it is the same without the [shuffle] operator.  (The
    framework can refuse to build a dataset; then nothing is returned.) *)
Theorem tfrecord_pipeline_composition `{fw : Framework}
    (cls : PyClass) (FLAGS : Flags) (tfrecord_files : option string)
    (batch_size epochs : Z) (dataset : Dataset record example) :
  let records :=
    TFRecordDataset [tfrecord_files]
                    (if gzip FLAGS then Some "GZIP" else None) in
  let mapped :=
    Map records (cls_parser cls)
        (match parallel_parse FLAGS with
         | Some degree => Calls degree
         | None => AUTOTUNE
         end) in
  (tfrecord_pipeline cls FLAGS tfrecord_files batch_size epochs true
   = Ok dataset ->
     dataset =
       Prefetch (Batch (Repeat (Shuffle mapped (shuffle_buffer FLAGS)) epochs)
                       batch_size)
                (prefetch_buffer FLAGS)
     /\ operators dataset
        = [op_map; op_shuffle; op_repeat; op_batch; op_prefetch])
  /\ (tfrecord_pipeline cls FLAGS tfrecord_files batch_size epochs false
      = Ok dataset ->
        dataset =
          Prefetch (Batch (Repeat mapped epochs) batch_size)
                   (prefetch_buffer FLAGS)
        /\ operators dataset = [op_map; op_repeat; op_batch; op_prefetch]).
Proof.
  cbv zeta. split; intros Hbuilt;
    apply tfrecord_pipeline_inv in Hbuilt as (-> & _ & _);
    split; reflexivity.
Qed.

Lemma tfrecord_pipeline_composition_witness :
  let mapped :=
    Map (TFRecordDataset [Some "train.tfrecord"] None)
        (cls_parser example_class) (Calls 8) in
  @tfrecord_pipeline example_framework example_class training_flags
    (Some "train.tfrecord") 32 3 true
  = Ok (Prefetch (Batch (Repeat (Shuffle mapped 512) 3) 32) 4096)
  /\ @tfrecord_pipeline example_framework example_class training_flags
       (Some "train.tfrecord") 32 3 false
     = Ok (Prefetch (Batch (Repeat mapped 3) 32) 4096).
Proof.
  intros mapped. split.
  - destruct (@tfrecord_pipeline example_framework example_class
                training_flags (Some "train.tfrecord") 32 3 true)
      as [dataset |] eqn:Hbuilt; [| discriminate Hbuilt].
    destruct (@tfrecord_pipeline_composition example_framework example_class
                training_flags (Some "train.tfrecord") 32 3 dataset)
      as (Hshuffled & _).
    destruct (Hshuffled Hbuilt) as (-> & _). reflexivity.
  - destruct (@tfrecord_pipeline example_framework example_class
                training_flags (Some "train.tfrecord") 32 3 false)
      as [dataset |] eqn:Hbuilt; [| discriminate Hbuilt].
    destruct (@tfrecord_pipeline_composition example_framework example_class
                training_flags (Some "train.tfrecord") 32 3 dataset)
      as (_ & Hplain).
    destruct (Hplain Hbuilt) as (-> & _). reflexivity.
Defined.

(** C9: [create_train_data_iterator] always asks for the training
    pipeline over [train_data] with shuffling and then for the validation
    pipeline over [valid_data] without it, both with 1 for [epochs],
    whatever the [epochs] flag is; when both are built, the training
    iterator is the one with the [shuffle] operator and [repeat(1)] and the
    validation iterator the one without [shuffle] and with [repeat(1)]. *)
Theorem create_train_data_iterator_one_epoch `{fw : Framework}
    (FLAGS : Flags) (self : Self) :
  let mapped files :=
    Map (TFRecordDataset [files] (if gzip FLAGS then Some "GZIP" else None))
        (cls_parser (self_class self))
        (match parallel_parse FLAGS with
         | Some degree => Calls degree
         | None => AUTOTUNE
         end) in
  fst (create_train_data_iterator FLAGS self) =
    (_ ← tfrecord_pipeline (self_class self) FLAGS (train_data FLAGS)
                           (batch_size FLAGS) 1 true;
     _ ← tfrecord_pipeline (self_class self) FLAGS (valid_data FLAGS)
                           (batch_size FLAGS) 1 false;
     Ok tt)
  /\ (forall n, create_train_data_iterator (set_epochs n FLAGS) self
                = create_train_data_iterator FLAGS self)
  /\ (forall self',
        create_train_data_iterator FLAGS self = (Ok tt, self') ->
        train_iterator self' =
          Some (Prefetch (Batch (Repeat (Shuffle (mapped (train_data FLAGS))
                                                 (shuffle_buffer FLAGS)) 1)
                                (batch_size FLAGS))
                         (prefetch_buffer FLAGS))
        /\ valid_iterator self' =
          Some (Prefetch (Batch (Repeat (mapped (valid_data FLAGS)) 1)
                                (batch_size FLAGS))
                         (prefetch_buffer FLAGS))).
Proof.
  cbv zeta. split_and!.
  - unfold create_train_data_iterator.
    destruct (tfrecord_pipeline _ _ (train_data FLAGS) _ _ _); [| reflexivity].
    cbn [self_class set_train_iterator mbind result_bind].
    destruct (tfrecord_pipeline _ _ (valid_data FLAGS) _ _ _); reflexivity.
  - intros n. reflexivity.
  - intros self' Hcreated.
    apply create_train_data_iterator_inv in Hcreated
      as (train_it & valid_it & Htrain & Hvalid & ->).
    apply tfrecord_pipeline_inv in Htrain as (-> & _ & _).
    apply tfrecord_pipeline_inv in Hvalid as (-> & _ & _).
    split; reflexivity.
Qed.

Lemma create_train_data_iterator_one_epoch_witness :
  let mapped file :=
    Map (TFRecordDataset [Some file] None) (cls_parser example_class)
        (Calls 8) in
  exists self',
    @create_train_data_iterator example_framework training_flags
      example_instance = (Ok tt, self') /\
    train_iterator self' =
      Some (Prefetch (Batch (Repeat (Shuffle (mapped "train.tfrecord") 512) 1)
                            1) 4096) /\
    valid_iterator self' =
      Some (Prefetch (Batch (Repeat (mapped "valid.tfrecord") 1) 1) 4096).
Proof.
  intros mapped.
  destruct (@create_train_data_iterator example_framework training_flags
              example_instance) as [[[] |] self'] eqn:Hcreated;
    [| discriminate Hcreated].
  exists self'. split; [reflexivity |].
  destruct (@create_train_data_iterator_one_epoch example_framework
              training_flags example_instance) as (_ & _ & Hiterators).
  exact (Hiterators self' Hcreated).
Defined.

(** ** Unimplemented methods *)

Section Stubs.
Context `{fw : Framework}.

Lemma get_summary_raises :
  raises_not_implemented get_summary /\ ~ returns_value get_summary.
Proof.
  split.
  - eexists. reflexivity.
  - intros (v & Hv). discriminate Hv.
Qed.

Lemma parser_raises (serialized : record) :
  raises_not_implemented (parser serialized) /\
  ~ returns_value (parser serialized).
Proof.
  split.
  - eexists. reflexivity.
  - intros (v & Hv). discriminate Hv.
Qed.

(** On the class itself [__init__] stops at [object.__init__]. *)
Lemma init_of_base_class (flags FLAGS : Flags) (w : World) :
  exists msg, __init__ BaseTrainable flags FLAGS w = (Raise (TypeError msg), w).
Proof. eexists. reflexivity. Qed.

Lemma build_loss_of_instance :
  build_loss (instance_of_size 2) = Ok BinaryCrossentropy.
Proof.
  unfold build_loss, dict_getitem. cbn [VOC_SIZE LABEL instance_of_size].
  rewrite lookup_singleton_eq. reflexivity.
Qed.

Lemma build_metrics_of_instance :
  build_metrics (instance_of_size 2) = Ok [AUC; BinaryAccuracy].
Proof.
  unfold build_metrics, dict_getitem. cbn [VOC_SIZE LABEL instance_of_size].
  rewrite lookup_singleton_eq. reflexivity.
Qed.

(** Without a file name the source of the pipeline is refused. *)
Lemma pipeline_without_file (cls : PyClass) (FLAGS : Flags)
    (batch_size epochs : Z) (shuffle : bool) :
  raises_value_error
    (tfrecord_pipeline cls FLAGS None batch_size epochs shuffle).
Proof. eexists. reflexivity. Qed.

Lemma create_without_data (FLAGS : Flags) (self : Self) :
  train_data FLAGS = None ->
  raises_value_error (fst (create_train_data_iterator FLAGS self)) /\
  snd (create_train_data_iterator FLAGS self) = self.
Proof.
  intros Hdata. unfold create_train_data_iterator. rewrite Hdata.
  split; [eexists |]; reflexivity.
Qed.

Lemma train_without_data (FLAGS : Flags) (self : Self) (model : KerasModel) :
  train_data FLAGS = None ->
  raises_value_error (fst (train FLAGS self model)).
Proof.
  intros Hdata. unfold train, create_train_data_iterator. rewrite Hdata.
  eexists. reflexivity.
Qed.

(** Each of the other ten methods has a call that does not raise
    [NotImplementedError]. *)
Lemma implemented_methods (m : method) :
  inhabited tensor -> inhabited KerasModel ->
  m <> m_get_summary -> m <> m_parser ->
  exists c, method_of c = m /\
            forall msg, raised c <> Some (NotImplementedError msg).
Proof.
  intros [r] [model] Hsummary Hparser. destruct m; try contradiction.
  - exists (call___init__ BaseTrainable example_flags example_flags empty_world).
    split; [reflexivity |]. intros msg. cbn [raised].
    destruct (init_of_base_class example_flags example_flags empty_world)
      as (msg' & ->). discriminate.
  - exists (call_seed_everything 10 empty_world).
    split; [reflexivity | discriminate].
  - exists (call_build_loss (instance_of_size 2)). split; [reflexivity |].
    intros msg. cbn [raised]. rewrite build_loss_of_instance. discriminate.
  - exists (call_build_metrics (instance_of_size 2)). split; [reflexivity |].
    intros msg. cbn [raised]. rewrite build_metrics_of_instance. discriminate.
  - exists (call_tfrecord_pipeline subclass example_flags None 1 1 true).
    split; [reflexivity |]. intros msg. cbn [raised].
    destruct (pipeline_without_file subclass example_flags 1 1 true)
      as (msg' & ->). discriminate.
  - exists (call_create_train_data_iterator example_flags (instance_of_size 2)).
    split; [reflexivity |]. intros msg. cbn [raised].
    destruct (create_without_data example_flags (instance_of_size 2) eq_refl)
      as ((msg' & ->) & _). discriminate.
  - exists (call_train example_flags (instance_of_size 2) model).
    split; [reflexivity |]. intros msg. cbn [raised].
    destruct (train_without_data example_flags (instance_of_size 2) model
                eq_refl) as (msg' & ->). discriminate.
  - exists (call__mylog r). split; [reflexivity | discriminate].
  - exists (call_build_optimizer example_flags).
    split; [reflexivity | discriminate].
  - exists (call_lr_schedule 0 0%float).
    split; [reflexivity | discriminate].
Qed.

End Stubs.

(** C5: exactly two methods of [BaseTrainable] are unimplemented stubs,
    [get_summary] and [parser]: every call of either raises
    [NotImplementedError] and returns no value, also when it is reached
    through the class itself, and each of the other methods has a call
    that does not raise [NotImplementedError]. *)
Theorem unimplemented_are_get_summary_and_parser `{fw : Framework} :
  inhabited tensor -> inhabited KerasModel ->
  (forall m, unimplemented m <-> m = m_get_summary \/ m = m_parser) /\
  (raises_not_implemented get_summary /\ ~ returns_value get_summary) /\
  (forall serialized,
     raises_not_implemented (parser serialized) /\
     ~ returns_value (parser serialized)) /\
  cls_get_summary BaseTrainable = get_summary /\
  cls_parser BaseTrainable = parser.
Proof.
  intros Htensor Hmodel. split_and!.
  - intros m. split.
    + intros Hstub.
      destruct (decide (m = m_get_summary)) as [| Hs]; [by left |].
      destruct (decide (m = m_parser)) as [| Hp]; [by right |].
      destruct (implemented_methods m Htensor Hmodel Hs Hp) as (c & Hc & Hno).
      destruct (Hstub c Hc) as (msg & Hmsg). destruct (Hno msg Hmsg).
    + intros [-> | ->] c Hc; destruct c; try discriminate Hc;
        eexists; reflexivity.
  - apply get_summary_raises.
  - apply get_summary_raises.
  - apply parser_raises.
  - reflexivity.
  - reflexivity.
Qed.

Lemma unimplemented_are_get_summary_and_parser_witness :
  inhabited (@tensor example_framework) /\
  inhabited (@KerasModel example_framework) /\
  forall m, @unimplemented example_framework m <->
            m = m_get_summary \/ m = m_parser.
Proof.
  split; [exact (inhabits 0) |]. split; [exact (inhabits tt) |].
  exact (proj1 (@unimplemented_are_get_summary_and_parser example_framework
                  (inhabits 0) (inhabits tt))).
Defined.

(** ** The NFM model *)

Section NFMProperties.
Context {tensor Layer : Type}.
Variable layer_call : Layer -> tensor -> result tensor.
Variable int : string -> result Z.
Variable build_fm : @NFM Layer -> result Layer.
Variable build_deep : @NFM Layer -> list Z -> result Layer.

(** [build_network] calls the two layers the object holds, one after the
    other. *)
Lemma build_network_of_layers {T} (self : NFM) (b h : Layer)
    (features : tensor) (is_training : option T) :
  B_Interaction_Layer self = Some b ->
  Hidden_Layers self = Some h ->
  build_network layer_call self features is_training =
    layer_call b features ≫= layer_call h.
Proof.
  intros Hb Hh. unfold build_network. rewrite Hb, Hh. cbn.
  destruct (layer_call b features) as [logit |]; cbn; [| reflexivity].
  destruct (layer_call h logit); reflexivity.
Qed.

(** A [build] that completes has parsed the layer sizes and stored what
    the two inherited builders returned. *)
Lemma build_completes {S} (self self' : NFM) (input_shape : S) :
  build int build_fm build_deep self input_shape = (Ok tt, self') ->
  exists hidden fm deep,
    mapM int (split_comma (deep_layers (nfm_flags self))) = Ok hidden /\
    build_fm self = Ok fm /\
    build_deep (set_B_Interaction_Layer fm self) hidden = Ok deep /\
    self' = set_Hidden_Layers deep (set_B_Interaction_Layer fm self).
Proof.
  unfold build.
  destruct (mapM int _) as [hidden |] eqn:Hhidden; [| discriminate].
  destruct (build_fm self) as [fm |] eqn:Hfm; [| discriminate].
  destruct (build_deep _ hidden) as [deep |] eqn:Hdeep; [| discriminate].
  intros [= <-]. exists hidden, fm, deep. auto.
Qed.

End NFMProperties.

(** C7: after [build], [build_network] returns, for every [features],
    [Hidden_Layers] applied to the result of [B_Interaction_Layer] applied
    to [features], these being the layers [build_fm] and [build_deep]
    returned in [build], and nothing else. *)
Theorem build_network_is_composition {tensor Layer S T : Type}
    (layer_call : Layer -> tensor -> result tensor)
    (int : string -> result Z)
    (build_fm : @NFM Layer -> result Layer)
    (build_deep : @NFM Layer -> list Z -> result Layer)
    (self self' : NFM) (input_shape : S) :
  build int build_fm build_deep self input_shape = (Ok tt, self') ->
  exists hidden fm deep,
    mapM int (split_comma (deep_layers (nfm_flags self))) = Ok hidden /\
    build_fm self = Ok fm /\
    build_deep (set_B_Interaction_Layer fm self) hidden = Ok deep /\
    B_Interaction_Layer self' = Some fm /\
    Hidden_Layers self' = Some deep /\
    forall (features : tensor) (is_training : option T),
      build_network layer_call self' features is_training =
        layer_call fm features ≫= layer_call deep.
Proof.
  intros Hbuild.
  apply build_completes in Hbuild as (hidden & fm & deep & Hh & Hfm & Hdeep & ->).
  exists hidden, fm, deep. split_and!; try done.
  intros features is_training. by apply build_network_of_layers.
Qed.

Lemma build_network_is_composition_witness :
  build example_int example_build_fm example_build_deep example_nfm tt
  = (Ok tt, set_Hidden_Layers (fun x => x + 48)
              (set_B_Interaction_Layer (fun x => x * x) example_nfm))
  /\ exists hidden fm deep,
       mapM example_int (split_comma (deep_layers (nfm_flags example_nfm)))
       = Ok hidden /\
       example_build_fm example_nfm = Ok fm /\
       example_build_deep (set_B_Interaction_Layer fm example_nfm) hidden
       = Ok deep /\
       B_Interaction_Layer
         (set_Hidden_Layers (fun x => x + 48)
            (set_B_Interaction_Layer (fun x => x * x) example_nfm)) = Some fm /\
       Hidden_Layers
         (set_Hidden_Layers (fun x => x + 48)
            (set_B_Interaction_Layer (fun x => x * x) example_nfm)) = Some deep /\
       forall (features : Z) (is_training : option bool),
         build_network example_layer_call
           (set_Hidden_Layers (fun x => x + 48)
              (set_B_Interaction_Layer (fun x => x * x) example_nfm))
           features is_training
         = example_layer_call fm features ≫= example_layer_call deep.
Proof.
  split; [reflexivity |].
  apply (build_network_is_composition (T := bool) example_layer_call
           example_int example_build_fm example_build_deep example_nfm _ tt).
  reflexivity.
Defined.


(** * Further properties *)

(** ** [train] *)

Lemma build_optimizer_miss (FLAGS : Flags) :
  ~ In (optimizer FLAGS) optimizer_names ->
  build_optimizer FLAGS =
    Raise (ValueError ("--optimizer " +:+ optimizer FLAGS +:+ " was not found.")).
Proof.
  intros Hnot. unfold build_optimizer.
  rewrite !(eqb_name_miss _ _ Hnot) by (cbn; tauto). reflexivity.
Qed.

Lemma build_optimizer_hit (FLAGS : Flags) :
  In (optimizer FLAGS) optimizer_names ->
  exists optimizer, build_optimizer FLAGS = Ok optimizer.
Proof.
  intros Hname. unfold build_optimizer. cbn in Hname.
  decompose [or] Hname; try contradiction;
    match goal with E : _ = optimizer FLAGS |- _ => rewrite <- E end;
    eexists; reflexivity.
Qed.

Section Train.
Context `{fw : Framework}.

(** Building the iterators changes neither the loss nor the metrics. *)
Lemma create_keeps_objects (FLAGS : Flags) (self : Self) :
  loss_object (snd (create_train_data_iterator FLAGS self)) = loss_object self
  /\ metrics_object (snd (create_train_data_iterator FLAGS self))
     = metrics_object self.
Proof.
  unfold create_train_data_iterator.
  destruct (tfrecord_pipeline _ _ (train_data FLAGS) _ _ _); [| by split].
  cbn [self_class set_train_iterator].
  destruct (tfrecord_pipeline _ _ (valid_data FLAGS) _ _ _); by split.
Qed.

(** [train] once the iterators are built: the steps that follow. *)
Lemma train_after_create (FLAGS : Flags) (self self1 : Self)
    (model : KerasModel) :
  create_train_data_iterator FLAGS self = (Ok tt, self1) ->
  train FLAGS self model =
    (optimizer ← build_optimizer FLAGS;
     loss ← getattr "loss_object" (loss_object self);
     metrics ← getattr "metrics_object" (metrics_object self);
     model ← model_compile model optimizer loss metrics;
     callbacks ← train_callbacks FLAGS;
     train_it ← getattr "train_iterator" (train_iterator self1);
     valid_it ← getattr "valid_iterator" (valid_iterator self1);
     history ← model_fit model train_it valid_it (epochs FLAGS) callbacks;
     Ok (model, history),
     self1).
Proof.
  intros Hcreated. unfold train.
  pose proof (create_keeps_objects FLAGS self) as (Hloss & Hmetrics).
  rewrite Hcreated in *. cbn [snd] in *. rewrite Hloss, Hmetrics. reflexivity.
Qed.

Lemma train_unfold (FLAGS : Flags) (self self1 : Self)
    (model compiled : KerasModel) (optimizer : Optimizer) (loss : Loss)
    (metrics : list Metric) (callbacks : list Callback) :
  create_train_data_iterator FLAGS self = (Ok tt, self1) ->
  build_optimizer FLAGS = Ok optimizer ->
  loss_object self = Some loss ->
  metrics_object self = Some metrics ->
  model_compile model optimizer loss metrics = Ok compiled ->
  train_callbacks FLAGS = Ok callbacks ->
  exists train_it valid_it,
    tfrecord_pipeline (self_class self) FLAGS (train_data FLAGS)
                      (batch_size FLAGS) 1 true = Ok train_it /\
    tfrecord_pipeline (self_class self) FLAGS (valid_data FLAGS)
                      (batch_size FLAGS) 1 false = Ok valid_it /\
    train FLAGS self model =
      (history ←
         model_fit compiled train_it valid_it (epochs FLAGS) callbacks;
       Ok (compiled, history),
       self1).
Proof.
  intros Hcreated Hopt Hloss Hmetrics Hcompiled Hcallbacks.
  rewrite (train_after_create FLAGS self self1 model Hcreated).
  apply create_train_data_iterator_inv in Hcreated
    as (train_it & valid_it & Htrain & Hvalid & ->).
  exists train_it, valid_it. split_and!; [exact Htrain | exact Hvalid |].
  rewrite Hopt, Hloss, Hmetrics. cbn [mbind result_bind getattr].
  rewrite Hcompiled. cbn [mbind result_bind]. rewrite Hcallbacks.
  reflexivity.
Qed.

End Train.

(** X1: once the two iterators are built, with a recognised optimizer
    and an initialised object, and when [compile] and the callback
    constructors accept their arguments, [train] calls [fit] on the model
    compiled with the built optimizer and the object's loss and metrics, on
    the shuffled one-pass pipeline over [train_data] and the unshuffled one
    over [valid_data], for [FLAGS.epochs] epochs and with the callback
    list; it returns [fit]'s history and raises what [fit] raises. *)
Theorem train_is_fit `{fw : Framework} (FLAGS : Flags) (self self1 : Self)
    (model : KerasModel) (loss : Loss) (metrics : list Metric) :
  create_train_data_iterator FLAGS self = (Ok tt, self1) ->
  In (optimizer FLAGS) optimizer_names ->
  loss_object self = Some loss ->
  metrics_object self = Some metrics ->
  exists optimizer train_it valid_it,
    build_optimizer FLAGS = Ok optimizer /\
    tfrecord_pipeline (self_class self) FLAGS (train_data FLAGS)
                      (batch_size FLAGS) 1 true = Ok train_it /\
    tfrecord_pipeline (self_class self) FLAGS (valid_data FLAGS)
                      (batch_size FLAGS) 1 false = Ok valid_it /\
    forall compiled callbacks,
      model_compile model optimizer loss metrics = Ok compiled ->
      train_callbacks FLAGS = Ok callbacks ->
      let fitted :=
        model_fit compiled train_it valid_it (epochs FLAGS) callbacks in
      (forall history,
         fitted = Ok history ->
         train FLAGS self model = (Ok (compiled, history), self1)) /\
      (forall e, fitted = Raise e -> train FLAGS self model = (Raise e, self1)).
Proof.
  intros Hcreated Hname Hloss Hmetrics.
  destruct (build_optimizer_hit FLAGS Hname) as (optimizer & Hopt).
  pose proof (create_train_data_iterator_inv FLAGS self self1 Hcreated)
    as (train_it & valid_it & Htrain & Hvalid & _).
  exists optimizer, train_it, valid_it.
  split_and!; [exact Hopt | exact Htrain | exact Hvalid |].
  intros compiled callbacks Hcompiled Hcallbacks. cbv zeta.
  destruct (train_unfold FLAGS self self1 model compiled optimizer loss metrics
              callbacks Hcreated Hopt Hloss Hmetrics Hcompiled Hcallbacks)
    as (train_it' & valid_it' & Htrain' & Hvalid' & ->).
  assert (train_it' = train_it) as -> by congruence.
  assert (valid_it' = valid_it) as -> by congruence.
  split; intros r Hr; rewrite Hr; reflexivity.
Qed.

Lemma train_is_fit_witness :
  exists self1,
    @create_train_data_iterator example_framework training_flags
      example_instance = (Ok tt, self1) /\
    @train example_framework training_flags example_instance tt
    = (Ok (tt, 1), self1).
Proof.
  destruct (@create_train_data_iterator example_framework training_flags
              example_instance) as [[[] |] self1] eqn:Hcreated;
    [| discriminate Hcreated].
  exists self1. split; [reflexivity |].
  destruct (@train_is_fit example_framework training_flags example_instance
              self1 tt BinaryCrossentropy [AUC; BinaryAccuracy] Hcreated)
    as (optimizer & train_it & valid_it & Hopt & _ & _ & Hfit).
  - cbn. tauto.
  - reflexivity.
  - reflexivity.
  - destruct (@train_callbacks example_framework training_flags)
      as [callbacks |] eqn:Hcallbacks; [| discriminate Hcallbacks].
    destruct (Hfit tt callbacks eq_refl eq_refl) as (Hok & _).
    exact (Hok 1 eq_refl).
Defined.

(** X2: when building the iterators raises, [train] raises the same and
    goes no further; when they are built and the optimizer name is not
    recognised, [train] raises the [ValueError] of [build_optimizer]; in
    both cases [compile] and [fit] are not reached, whatever the model and
    the framework are. *)
Theorem train_unrecognised_optimizer `{fw : Framework} (FLAGS : Flags)
    (self : Self) (model : KerasModel) :
  (forall e self1,
     create_train_data_iterator FLAGS self = (Raise e, self1) ->
     train FLAGS self model = (Raise e, self1)) /\
  (forall self1,
     create_train_data_iterator FLAGS self = (Ok tt, self1) ->
     ~ In (optimizer FLAGS) optimizer_names ->
     train FLAGS self model =
       (Raise (ValueError ("--optimizer " +:+ optimizer FLAGS +:+
                           " was not found.")), self1)).
Proof.
  split.
  - intros e self1 Hcreated. unfold train. rewrite Hcreated. reflexivity.
  - intros self1 Hcreated Hnot.
    rewrite (train_after_create FLAGS self self1 model Hcreated).
    rewrite (build_optimizer_miss FLAGS Hnot). reflexivity.
Qed.

Lemma train_unrecognised_optimizer_witness :
  exists self1,
    @create_train_data_iterator example_framework
      (set_optimizer "Adam" training_flags) example_instance = (Ok tt, self1) /\
    @train example_framework (set_optimizer "Adam" training_flags)
           example_instance tt
    = (Raise (ValueError "--optimizer Adam was not found."), self1).
Proof.
  destruct (@create_train_data_iterator example_framework
              (set_optimizer "Adam" training_flags) example_instance)
    as [[[] |] self1] eqn:Hcreated; [| discriminate Hcreated].
  exists self1. split; [reflexivity |].
  apply (proj2 (@train_unrecognised_optimizer example_framework
                  (set_optimizer "Adam" training_flags) example_instance tt)
               self1 Hcreated).
  cbn. intros H. decompose [or] H; try discriminate. assumption.
Defined.

(** X3: once the iterators are built, on an object whose [loss_object]
    was never assigned [train] with a recognised optimizer raises
    [AttributeError] for [loss_object]; with the loss assigned and
    [metrics_object] not, for [metrics_object].  In both cases [fit] is
    not reached. *)
Theorem train_uninitialised `{fw : Framework} (FLAGS : Flags)
    (self self1 : Self) (model : KerasModel) :
  create_train_data_iterator FLAGS self = (Ok tt, self1) ->
  In (optimizer FLAGS) optimizer_names ->
  (loss_object self = None ->
     train FLAGS self model = (Raise (AttributeError "loss_object"), self1)) /\
  (forall loss, loss_object self = Some loss -> metrics_object self = None ->
     train FLAGS self model
     = (Raise (AttributeError "metrics_object"), self1)).
Proof.
  intros Hcreated Hname.
  destruct (build_optimizer_hit FLAGS Hname) as (o & Ho).
  rewrite (train_after_create FLAGS self self1 model Hcreated), Ho.
  split.
  - intros ->. reflexivity.
  - intros loss -> ->. reflexivity.
Qed.

Lemma train_uninitialised_witness :
  let fresh :=
    @mkSelf example_framework example_class 1 None "label" [] []
            {[ "label" := 2 ]} [] None None None None in
  exists self1 self2,
    @train example_framework training_flags fresh tt
    = (Raise (AttributeError "loss_object"), self1)
    /\ @train example_framework training_flags
              (set_loss_object BinaryCrossentropy fresh) tt
       = (Raise (AttributeError "metrics_object"), self2).
Proof.
  intros fresh.
  destruct (@create_train_data_iterator example_framework training_flags fresh)
    as [[[] |] self1] eqn:Hcreated1; [| discriminate Hcreated1].
  destruct (@create_train_data_iterator example_framework training_flags
              (set_loss_object BinaryCrossentropy fresh))
    as [[[] |] self2] eqn:Hcreated2; [| discriminate Hcreated2].
  exists self1, self2. split.
  - apply (@train_uninitialised example_framework training_flags fresh self1
             tt Hcreated1); [cbn; tauto | reflexivity].
  - apply (proj2 (@train_uninitialised example_framework training_flags
             (set_loss_object BinaryCrossentropy fresh) self2 tt Hcreated2
             ltac:(cbn; tauto)) BinaryCrossentropy); reflexivity.
Defined.

(** ** The callbacks [train] passes to [fit] *)








(** X6: with the four flags that select the optional callbacks at their
    declared defaults (no [profile_batch], no [patient_valid_passes], the
    [lr_schedule] flag off, [checkpoint_path] at
    [summaries/<start time>/cpk/]), a callback list that was built has four
    entries: the three fixed ones and the checkpoint callback; there is no
    early stopping, no learning-rate scheduler and no second
    TensorBoard. *)
Theorem train_callbacks_defaults `{fw : Framework} (FLAGS : Flags)
    (TIME_STAMP : string) (callbacks : list Callback) :
  profile_batch FLAGS = None ->
  patient_valid_passes FLAGS = None ->
  lr_schedule_flag FLAGS = false ->
  checkpoint_path FLAGS = "summaries/" +:+ TIME_STAMP +:+ "/cpk/" ->
  train_callbacks FLAGS = Ok callbacks ->
  callbacks =
    [ TensorBoard (summaries_dir FLAGS) None;
      CSVLogger (summaries_dir FLAGS +:+ "/log.csv") true ",";
      LossAndErrorPrintingCallback;
      ModelCheckpoint ("summaries/" +:+ TIME_STAMP +:+ "/cpk/") true
                      "val_loss" "auto" true ].
Proof.
  intros Hprofile Hpatience Hschedule Hcheckpoint.
  unfold train_callbacks, new_callback.
  rewrite Hprofile, Hpatience, Hschedule, Hcheckpoint.
  cbn [str_truthy int_truthy].
  change (negb (String.eqb ("summaries/" +:+ TIME_STAMP +:+ "/cpk/") ""))
    with true. cbv iota.
  repeat match goal with
         | |- context [callback_check ?c] =>
             destruct (callback_check c) as [[] |];
             cbn [mbind result_bind app]; [| discriminate]
         end.
  intros [= <-]. reflexivity.
Qed.

Lemma train_callbacks_defaults_witness :
  @train_callbacks example_framework training_flags
  = Ok [ TensorBoard "summaries/20200101-000000" None;
         CSVLogger "summaries/20200101-000000/log.csv" true ",";
         LossAndErrorPrintingCallback;
         ModelCheckpoint "summaries/20200101-000000/cpk/" true
                         "val_loss" "auto" true ].
Proof.
  destruct (@train_callbacks example_framework training_flags)
    as [callbacks |] eqn:Hcallbacks; [| discriminate Hcallbacks].
  f_equal.
  exact (@train_callbacks_defaults example_framework training_flags
           "20200101-000000" callbacks eq_refl eq_refl eq_refl eq_refl
           Hcallbacks).
Defined.

(** ** [__init__] *)

Section Init.
Context `{fw : Framework}.

(** Logging a list of lines touches the log only, and appends them in
    order. *)
Lemma fold_logging_info {A} (line : A -> string) (items : list A) (w : World) :
  fold_left (fun w item => logging_info (line item) w) items w =
    mkWorld (tf_random_seed w) (environ w) (directories w) (absl_log_file w)
            (log w ++ map line items).
Proof.
  revert w. induction items as [| item items IH]; intros w; cbn [fold_left map].
  - rewrite app_nil_r. by destruct w.
  - rewrite IH. cbn. by rewrite <- app_assoc.
Qed.

(** A directory step that succeeds leaves the path in place, removes
    nothing, changes nothing when the path was there, and touches only the
    directories. *)
Lemma ensure_directory_inv (path : string) (w w1 : World) :
  ensure_directory path w = Ok w1 ->
  tf_random_seed w1 = tf_random_seed w /\
  environ w1 = environ w /\
  absl_log_file w1 = absl_log_file w /\
  log w1 = log w /\
  path ∈ directories w1 /\
  directories w ⊆ directories w1 /\
  (path ∈ directories w -> directories w1 = directories w).
Proof.
  unfold ensure_directory, os_makedirs, os_path_exists.
  case_bool_decide as Hthere.
  - intros [= <-]. split_and!; done.
  - destruct (String.eqb path ""); [discriminate |].
    destruct (os_makedirs_check path w) as [[] |]; cbn; [| discriminate].
    intros [= <-]. cbn. split_and!; try reflexivity.
    + apply elem_of_union_l, elem_of_list_to_set, list_elem_of_In, in_or_app.
      right. by left.
    + apply union_subseteq_r.
    + intros Hin. contradiction.
Qed.

Lemma use_absl_log_file_inv (program_name log_dir : string) (w w1 : World) :
  use_absl_log_file program_name log_dir w = Ok w1 ->
  w1 = set_absl_log_file program_name log_dir w.
Proof.
  unfold use_absl_log_file.
  destruct (absl_log_file_check program_name log_dir w) as [[] |]; cbn;
    [| discriminate].
  by intros [= <-].
Qed.

(** The world [__init__] leaves once [super().__init__] has returned, the
    directory is in place and the log file is open, whether or not the rest
    of it raises. *)
Lemma init_world (cls : PyClass) (flags FLAGS : Flags) (w w1 w2 : World)
    (u : unit) :
  cls_super_init cls flags = Ok u ->
  ensure_directory (summaries_dir flags) (seed_everything 10 w) = Ok w1 ->
  use_absl_log_file "DeePray" (summaries_dir flags) w1 = Ok w2 ->
  snd (__init__ cls flags FLAGS w) =
    mkWorld (Some 10)
            (<["PYTHONHASHSEED" := "10"]> (environ w))
            (directories w1)
            (Some ("DeePray", summaries_dir flags))
            (log w ++
             [ " " +:+ time_strftime "%Y%m%d %H:%M:%S" +:+ " Initialize training";
               tab +:+ "tf.app.flags.FLAGS:" ] ++
             map flag_line (sorted_items (flag_values_dict FLAGS))).
Proof.
  intros Hsuper Hdir Hfile. unfold __init__. rewrite Hsuper, Hdir, Hfile.
  cbn [snd].
  change (fun (w : World) (item : string * string) =>
            logging_info (tab +:+ format_25 item.1 +:+ "= " +:+ item.2) w)
    with (fun (w : World) (item : string * string) =>
            logging_info (flag_line item) w).
  rewrite fold_logging_info.
  apply use_absl_log_file_inv in Hfile as ->.
  apply ensure_directory_inv in Hdir as (Hseed & Henv & _ & Hlog & _).
  cbn. rewrite Hseed, Henv, Hlog. cbn. f_equal. by rewrite <- !app_assoc.
Qed.

(** The object [__init__] returns when, after that, the class provides a
    summary whose label has a cardinality. *)
Lemma init_result (cls : PyClass) (flags FLAGS : Flags) (w w1 w2 : World)
    (u : unit) (summary : Summary) (size : Z) :
  cls_super_init cls flags = Ok u ->
  ensure_directory (summaries_dir flags) (seed_everything 10 w) = Ok w1 ->
  use_absl_log_file "DeePray" (summaries_dir flags) w1 = Ok w2 ->
  cls_get_summary cls = Ok summary ->
  summary_VOC_SIZE summary !! summary_LABEL summary = Some size ->
  fst (__init__ cls flags FLAGS w) =
    Ok (mkSelf cls (batch_size FLAGS) (patient_valid_passes FLAGS)
               (summary_LABEL summary)
               (summary_CATEGORY_FEATURES summary)
               (summary_NUMERICAL_FEATURES summary)
               (summary_VOC_SIZE summary)
               (summary_VARIABLE_FEATURES summary)
               (Some (if size =? 2 then [AUC; BinaryAccuracy]
                      else [SparseCategoricalAccuracy]))
               (Some (if size =? 2 then BinaryCrossentropy
                      else SparseCategoricalCrossentropy))
               None None).
Proof.
  intros Hsuper Hdir Hfile Hsummary Hsize. unfold __init__.
  rewrite Hsuper, Hdir, Hfile. cbn [fst]. rewrite Hsummary.
  cbn [mbind result_bind].
  unfold build_metrics, build_loss, dict_getitem.
  cbn [VOC_SIZE LABEL set_metrics_object]. rewrite Hsize. cbn.
  destruct (size =? 2); reflexivity.
Qed.

(** An [__init__] that returned an object got a summary with a cardinality
    for its label, and the object is the one above. *)
Lemma init_returned (cls : PyClass) (flags FLAGS : Flags) (w : World)
    (self : Self) :
  fst (__init__ cls flags FLAGS w) = Ok self ->
  exists summary size,
    cls_get_summary cls = Ok summary /\
    summary_VOC_SIZE summary !! summary_LABEL summary = Some size /\
    self =
      mkSelf cls (batch_size FLAGS) (patient_valid_passes FLAGS)
             (summary_LABEL summary)
             (summary_CATEGORY_FEATURES summary)
             (summary_NUMERICAL_FEATURES summary)
             (summary_VOC_SIZE summary)
             (summary_VARIABLE_FEATURES summary)
             (Some (if size =? 2 then [AUC; BinaryAccuracy]
                    else [SparseCategoricalAccuracy]))
             (Some (if size =? 2 then BinaryCrossentropy
                    else SparseCategoricalCrossentropy))
             None None.
Proof.
  unfold __init__.
  destruct (cls_super_init cls flags) as [u |]; [| discriminate].
  destruct (ensure_directory _ _) as [w1 |]; [| discriminate].
  destruct (use_absl_log_file _ _ _) as [w2 |]; [| discriminate].
  cbn [fst].
  destruct (cls_get_summary cls) as [summary |]; [| discriminate].
  cbn [mbind result_bind].
  unfold build_metrics, build_loss, dict_getitem.
  cbn [VOC_SIZE LABEL set_metrics_object].
  destruct (summary_VOC_SIZE summary !! summary_LABEL summary) as [size |] eqn:Hsize;
    [| discriminate].
  cbn. intros Hself. exists summary, size. split_and!; [done | done |].
  destruct (size =? 2); by injection Hself as <-.
Qed.

End Init.

#[export] Instance item_le_total : Total item_le.
Proof. intros a b. unfold item_le. apply String.leb_total. Qed.

(** X7: when [super().__init__(flags)] raises, [__init__] raises the same
    exception and has done nothing else: no seed is set, no directory made,
    nothing logged.  This is what happens for [BaseTrainable] itself, whose
    base [object] rejects the argument. *)
Theorem init_super_raises `{fw : Framework} (cls : PyClass)
    (flags FLAGS : Flags) (w : World) (e : exn) :
  cls_super_init cls flags = Raise e ->
  __init__ cls flags FLAGS w = (Raise e, w).
Proof. intros Hsuper. unfold __init__. rewrite Hsuper. reflexivity. Qed.

Lemma init_super_raises_witness :
  @__init__ example_framework BaseTrainable example_flags example_flags
            empty_world
  = (Raise (TypeError
       "object.__init__() takes exactly one argument (the instance to initialize)"),
     empty_world).
Proof.
  apply (@init_super_raises example_framework BaseTrainable example_flags
           example_flags empty_world).
  reflexivity.
Defined.

(** X8: for a class that does not override [get_summary], once
    [super().__init__] has returned, the summaries directory is in place
    and the log file is open, [__init__] raises [NotImplementedError], but
    only after its side effects: the world it leaves is not the one it
    started in, and is the one a class that does override it leaves. *)
Theorem init_without_summary `{fw : Framework} (cls : PyClass)
    (flags FLAGS : Flags) (w w1 w2 : World) (u : unit) :
  cls_super_init cls flags = Ok u ->
  ensure_directory (summaries_dir flags) (seed_everything 10 w) = Ok w1 ->
  use_absl_log_file "DeePray" (summaries_dir flags) w1 = Ok w2 ->
  cls_get_summary cls = get_summary ->
  raises_not_implemented (fst (__init__ cls flags FLAGS w)) /\
  snd (__init__ cls flags FLAGS w) <> w /\
  forall cls' u',
    cls_super_init cls' flags = Ok u' ->
    snd (__init__ cls flags FLAGS w) = snd (__init__ cls' flags FLAGS w).
Proof.
  intros Hsuper Hdir Hfile Hsummary. split_and!.
  - unfold __init__. rewrite Hsuper, Hdir, Hfile. cbn [fst].
    rewrite Hsummary. eexists. reflexivity.
  - rewrite (init_world cls flags FLAGS w w1 w2 u Hsuper Hdir Hfile).
    intros Hw. apply (f_equal (fun w => length (log w))) in Hw. cbn in Hw.
    rewrite length_app in Hw. cbn in Hw. lia.
  - intros cls' u' Hsuper'.
    rewrite (init_world cls flags FLAGS w w1 w2 u Hsuper Hdir Hfile).
    rewrite (init_world cls' flags FLAGS w w1 w2 u' Hsuper' Hdir Hfile).
    reflexivity.
Qed.

Lemma init_without_summary_witness :
  let cls := @mkClass example_framework get_summary parser (fun _ => Ok tt) in
  raises_not_implemented
    (fst (__init__ cls training_flags training_flags empty_world)) /\
  snd (__init__ cls training_flags training_flags empty_world) <> empty_world.
Proof.
  intros cls.
  destruct (@init_without_summary example_framework cls training_flags
              training_flags empty_world _ _ tt eq_refl eq_refl eq_refl eq_refl)
    as (Hraise & Hw & _).
  exact (conj Hraise Hw).
Defined.

(** X9: once [super().__init__] has returned, the summaries directory is
    in place and the log file is open, [__init__] has set the TensorFlow
    seed to 10 and [PYTHONHASHSEED] to ["10"] whatever the flags say, has
    left every other environment variable as it was, has pointed the log
    file at the [summaries_dir] of its argument, and that directory
    exists; no directory has disappeared, and when it existed before the
    set of directories is unchanged. *)
Theorem init_effects `{fw : Framework} (cls : PyClass) (flags FLAGS : Flags)
    (w w1 w2 : World) (u : unit) :
  cls_super_init cls flags = Ok u ->
  ensure_directory (summaries_dir flags) (seed_everything 10 w) = Ok w1 ->
  use_absl_log_file "DeePray" (summaries_dir flags) w1 = Ok w2 ->
  let w' := snd (__init__ cls flags FLAGS w) in
  tf_random_seed w' = Some 10 /\
  environ w' !! "PYTHONHASHSEED" = Some "10" /\
  (forall name, name <> "PYTHONHASHSEED" ->
                environ w' !! name = environ w !! name) /\
  absl_log_file w' = Some ("DeePray", summaries_dir flags) /\
  summaries_dir flags ∈ directories w' /\
  directories w ⊆ directories w' /\
  (summaries_dir flags ∈ directories w -> directories w' = directories w).
Proof.
  intros Hsuper Hdir Hfile. cbv zeta.
  rewrite (init_world cls flags FLAGS w w1 w2 u Hsuper Hdir Hfile).
  apply ensure_directory_inv in Hdir as (_ & _ & _ & _ & Hin & Hsub & Hsame).
  cbn [tf_random_seed environ absl_log_file directories]. split_and!.
  - reflexivity.
  - apply lookup_insert_eq.
  - intros name Hname. by apply lookup_insert_ne.
  - reflexivity.
  - exact Hin.
  - exact Hsub.
  - exact Hsame.
Qed.

Lemma init_effects_witness :
  let w' := snd (__init__ example_class training_flags training_flags
                          empty_world) in
  tf_random_seed w' = Some 10 /\
  environ w' !! "PYTHONHASHSEED" = Some "10" /\
  summaries_dir training_flags ∈ directories w'.
Proof.
  intros w'.
  destruct (@init_effects example_framework example_class training_flags
              training_flags empty_world _ _ tt eq_refl eq_refl eq_refl)
    as (Hseed & Henv & _ & _ & Hdir & _).
  exact (conj Hseed (conj Henv Hdir)).
Defined.

(** X10: what [__init__] logs, once [super().__init__] has returned, the
    summaries directory is in place and the log file is open.  The earlier
    lines stay; it appends the start line, the header, and then one line
    per flag of [flag_values_dict()], each flag exactly once, in increasing
    order of the flag names. *)
Theorem init_log_lines `{fw : Framework} (cls : PyClass) (flags FLAGS : Flags)
    (w w1 w2 : World) (u : unit) :
  cls_super_init cls flags = Ok u ->
  ensure_directory (summaries_dir flags) (seed_everything 10 w) = Ok w1 ->
  use_absl_log_file "DeePray" (summaries_dir flags) w1 = Ok w2 ->
  exists items,
    log (snd (__init__ cls flags FLAGS w)) =
      log w ++
      [ " " +:+ time_strftime "%Y%m%d %H:%M:%S" +:+ " Initialize training";
        tab +:+ "tf.app.flags.FLAGS:" ] ++
      map flag_line items /\
    items ≡ₚ map_to_list (flag_values_dict FLAGS) /\
    Sorted item_le items /\
    length (log (snd (__init__ cls flags FLAGS w))) =
      (length (log w) + 2 + size (flag_values_dict FLAGS))%nat.
Proof.
  intros Hsuper Hdir Hfile. exists (sorted_items (flag_values_dict FLAGS)).
  rewrite (init_world cls flags FLAGS w w1 w2 u Hsuper Hdir Hfile).
  cbn [log]. split_and!.
  - reflexivity.
  - apply merge_sort_Permutation.
  - apply (Sorted_merge_sort item_le).
  - rewrite !length_app, length_map. cbn [length].
    unfold sorted_items. rewrite (merge_sort_Permutation item_le).
    rewrite length_map_to_list. lia.
Qed.

Lemma init_log_lines_witness :
  exists items,
    log (snd (__init__ example_class training_flags training_flags
                       empty_world)) =
      [] ++
      [ " 20200101 00:00:00 Initialize training";
        tab +:+ "tf.app.flags.FLAGS:" ] ++
      map flag_line items /\
    items ≡ₚ map_to_list (@flag_values_dict example_framework training_flags) /\
    Sorted item_le items /\
    length (log (snd (__init__ example_class training_flags training_flags
                               empty_world))) =
      (0 + 2 + size (@flag_values_dict example_framework training_flags))%nat.
Proof.
  exact (@init_log_lines example_framework example_class training_flags
           training_flags empty_world _ _ tt eq_refl eq_refl eq_refl).
Defined.

(** X11: when the summary's [VOC_SIZE] has no entry for its [LABEL],
    [__init__], having come as far as [get_summary], raises [KeyError] for
    that label (from [build_metrics], the first to look it up). *)
Theorem init_label_missing `{fw : Framework} (cls : PyClass)
    (flags FLAGS : Flags) (w w1 w2 : World) (u : unit) (summary : Summary) :
  cls_super_init cls flags = Ok u ->
  ensure_directory (summaries_dir flags) (seed_everything 10 w) = Ok w1 ->
  use_absl_log_file "DeePray" (summaries_dir flags) w1 = Ok w2 ->
  cls_get_summary cls = Ok summary ->
  summary_VOC_SIZE summary !! summary_LABEL summary = None ->
  fst (__init__ cls flags FLAGS w) = Raise (KeyError (summary_LABEL summary)).
Proof.
  intros Hsuper Hdir Hfile Hsummary Hmissing. unfold __init__.
  rewrite Hsuper, Hdir, Hfile. cbn [fst]. rewrite Hsummary.
  cbn [mbind result_bind].
  unfold build_metrics, dict_getitem. cbn [VOC_SIZE LABEL].
  rewrite Hmissing. reflexivity.
Qed.

Lemma init_label_missing_witness :
  let cls :=
    @mkClass example_framework
      (Ok (mkSummary "click" [] [] {[ "label" := 2 ]} []))
      (fun serialized : string => Ok (String.length serialized))
      (fun _ => Ok tt) in
  fst (__init__ cls training_flags training_flags empty_world)
  = Raise (KeyError "click").
Proof.
  intros cls.
  exact (@init_label_missing example_framework cls training_flags
           training_flags empty_world _ _ tt
           (mkSummary "click" [] [] {[ "label" := 2 ]} [])
           eq_refl eq_refl eq_refl eq_refl eq_refl).
Defined.

(** X12: the object [__init__] returns, once [super().__init__] has
    returned, the summaries directory is in place, the log file is open
    and the summary gives the label a cardinality.  Its batch size and
    patience are those of the global [FLAGS]; it carries the five values of
    the summary; its loss and metrics are the binary pair when the label
    has two values and the sparse-categorical pair otherwise; it has no
    iterators yet. *)
Theorem init_object `{fw : Framework} (cls : PyClass) (flags FLAGS : Flags)
    (w w1 w2 : World) (u : unit) (summary : Summary) (size : Z) :
  cls_super_init cls flags = Ok u ->
  ensure_directory (summaries_dir flags) (seed_everything 10 w) = Ok w1 ->
  use_absl_log_file "DeePray" (summaries_dir flags) w1 = Ok w2 ->
  cls_get_summary cls = Ok summary ->
  summary_VOC_SIZE summary !! summary_LABEL summary = Some size ->
  exists self,
    fst (__init__ cls flags FLAGS w) = Ok self /\
    self_class self = cls /\
    self_batch_size self = batch_size FLAGS /\
    max_patient_passes self = patient_valid_passes FLAGS /\
    mkSummary (LABEL self) (CATEGORY_FEATURES self) (NUMERICAL_FEATURES self)
              (VOC_SIZE self) (VARIABLE_FEATURES self) = summary /\
    (size = 2 ->
       loss_object self = Some BinaryCrossentropy /\
       metrics_object self = Some [AUC; BinaryAccuracy]) /\
    (size <> 2 ->
       loss_object self = Some SparseCategoricalCrossentropy /\
       metrics_object self = Some [SparseCategoricalAccuracy]) /\
    train_iterator self = None /\
    valid_iterator self = None.
Proof.
  intros Hsuper Hdir Hfile Hsummary Hsize. eexists. split.
  - exact (init_result cls flags FLAGS w w1 w2 u summary size
             Hsuper Hdir Hfile Hsummary Hsize).
  - cbn. split_and!; try reflexivity.
    + by destruct summary.
    + intros ->. split; reflexivity.
    + intros Hne. apply Z.eqb_neq in Hne. rewrite Hne. split; reflexivity.
Qed.

Lemma init_object_witness :
  exists self,
    fst (__init__ example_class training_flags (set_epochs 5 training_flags)
                  empty_world) = Ok self /\
    loss_object self = Some BinaryCrossentropy /\
    metrics_object self = Some [AUC; BinaryAccuracy] /\
    train_iterator self = None.
Proof.
  destruct (@init_object example_framework example_class training_flags
              (set_epochs 5 training_flags) empty_world _ _ tt binary_summary 2
              eq_refl eq_refl eq_refl eq_refl eq_refl)
    as (self & Hself & _ & _ & _ & _ & Hbinary & _ & Htrain & _).
  exists self. destruct (Hbinary eq_refl) as (Hloss & Hmetrics).
  exact (conj Hself (conj Hloss (conj Hmetrics Htrain))).
Defined.

(** X13: of its [flags] argument [__init__] uses the [summaries_dir] and
    nothing else (beyond handing it to [super().__init__]): two arguments
    with the same [summaries_dir] that the base treats alike give the same
    object and the same world.  Everything else is read from the global
    [FLAGS]. *)
Theorem init_flags_argument `{fw : Framework} (cls : PyClass)
    (flags1 flags2 FLAGS : Flags) (w : World) :
  cls_super_init cls flags1 = cls_super_init cls flags2 ->
  summaries_dir flags1 = summaries_dir flags2 ->
  __init__ cls flags1 FLAGS w = __init__ cls flags2 FLAGS w.
Proof.
  intros Hsuper Hdir. unfold __init__. rewrite Hsuper, Hdir. reflexivity.
Qed.

Lemma init_flags_argument_witness :
  let other :=
    mkFlags true true "sgd" (Some 3) (Some "2,4") "ckpt"
            (summaries_dir example_flags) (Some "a.tfrecord") None 64 9
            None 1 1 0.5%float "8" in
  @__init__ example_framework subclass example_flags example_flags empty_world
  = @__init__ example_framework subclass other example_flags empty_world.
Proof.
  intros other.
  apply (@init_flags_argument example_framework subclass example_flags other
           example_flags empty_world); reflexivity.
Defined.

(** X14: an object that [__init__] returned can be trained once its
    iterators are built: with a recognised optimizer, and when [compile]
    and the callback constructors accept their arguments, [train] reaches
    [fit], on the model compiled with the loss and the metrics that
    [build_loss] and [build_metrics] give for the object, and returns what
    [fit] returns. *)
Theorem init_then_train_is_fit `{fw : Framework} (cls : PyClass)
    (flags FLAGS FLAGS' : Flags) (w : World) (self self1 : Self)
    (model : KerasModel) :
  fst (__init__ cls flags FLAGS w) = Ok self ->
  create_train_data_iterator FLAGS' self = (Ok tt, self1) ->
  In (optimizer FLAGS') optimizer_names ->
  exists optimizer loss metrics train_it valid_it,
    build_optimizer FLAGS' = Ok optimizer /\
    build_loss self = Ok loss /\
    build_metrics self = Ok metrics /\
    tfrecord_pipeline cls FLAGS' (train_data FLAGS') (batch_size FLAGS') 1 true
    = Ok train_it /\
    tfrecord_pipeline cls FLAGS' (valid_data FLAGS') (batch_size FLAGS') 1 false
    = Ok valid_it /\
    forall compiled callbacks,
      model_compile model optimizer loss metrics = Ok compiled ->
      train_callbacks FLAGS' = Ok callbacks ->
      train FLAGS' self model =
        (history ←
           model_fit compiled train_it valid_it (epochs FLAGS') callbacks;
         Ok (compiled, history),
         self1).
Proof.
  intros Hinit Hcreated Hname.
  destruct (build_optimizer_hit FLAGS' Hname) as (optimizer & Hopt).
  apply init_returned in Hinit as (summary & size & _ & Hsize & ->).
  pose proof (create_train_data_iterator_inv FLAGS' _ self1 Hcreated)
    as (train_it & valid_it & Htrain & Hvalid & _).
  cbn [self_class] in Htrain, Hvalid.
  exists optimizer,
    (if size =? 2 then BinaryCrossentropy else SparseCategoricalCrossentropy),
    (if size =? 2 then [AUC; BinaryAccuracy] else [SparseCategoricalAccuracy]),
    train_it, valid_it.
  split_and!.
  - exact Hopt.
  - unfold build_loss, dict_getitem. cbn [VOC_SIZE LABEL]. rewrite Hsize. cbn.
    destruct (size =? 2); reflexivity.
  - unfold build_metrics, dict_getitem. cbn [VOC_SIZE LABEL]. rewrite Hsize.
    cbn. destruct (size =? 2); reflexivity.
  - exact Htrain.
  - exact Hvalid.
  - intros compiled callbacks Hcompiled Hcallbacks.
    destruct (train_unfold FLAGS' _ self1 model compiled optimizer _ _
                callbacks Hcreated Hopt eq_refl eq_refl Hcompiled Hcallbacks)
      as (train_it' & valid_it' & Htrain' & Hvalid' & ->).
    cbn [self_class] in Htrain', Hvalid'.
    assert (train_it' = train_it) as -> by congruence.
    assert (valid_it' = valid_it) as -> by congruence.
    reflexivity.
Qed.

Lemma init_then_train_is_fit_witness :
  exists self self1,
    fst (__init__ example_class training_flags training_flags empty_world)
    = Ok self /\
    @train example_framework training_flags self tt = (Ok (tt, 1), self1).
Proof.
  destruct (fst (__init__ example_class training_flags training_flags
                          empty_world)) as [self |] eqn:Hself;
    [| discriminate Hself].
  destruct (@create_train_data_iterator example_framework training_flags self)
    as [[[] |] self1] eqn:Hcreated.
  2: { vm_compute in Hself. injection Hself as <-. discriminate Hcreated. }
  exists self, self1. split; [reflexivity |].
  destruct (@init_then_train_is_fit example_framework example_class
              training_flags training_flags training_flags empty_world self
              self1 tt Hself Hcreated)
    as (optimizer & loss & metrics & train_it & valid_it & Hopt & Hloss
        & Hmetrics & _ & _ & Hfit).
  - cbn. tauto.
  - vm_compute in Hself. injection Hself as <-.
    injection Hopt as <-. injection Hloss as <-. injection Hmetrics as <-.
    destruct (@train_callbacks example_framework training_flags)
      as [callbacks |] eqn:Hcallbacks; [| discriminate Hcallbacks].
    rewrite (Hfit tt callbacks eq_refl eq_refl). reflexivity.
Defined.

(** ** [build_loss] and [build_metrics] on a label without cardinality *)

(** X15: when [VOC_SIZE] has no entry for [LABEL], both [build_loss] and
    [build_metrics] raise [KeyError] for the label; each returns a value
    exactly when the entry is there, so one never succeeds where the other
    fails. *)
Theorem build_loss_metrics_missing_label `{fw : Framework} (self : Self) :
  (VOC_SIZE self !! LABEL self = None ->
     build_loss self = Raise (KeyError (LABEL self)) /\
     build_metrics self = Raise (KeyError (LABEL self))) /\
  (returns_value (build_loss self) <-> is_Some (VOC_SIZE self !! LABEL self)) /\
  (returns_value (build_metrics self) <-> is_Some (VOC_SIZE self !! LABEL self)).
Proof.
  unfold build_loss, build_metrics, dict_getitem, returns_value.
  destruct (VOC_SIZE self !! LABEL self) as [size |]; cbn.
  - split_and!.
    + discriminate.
    + split; [eauto | intros _; destruct (size =? 2); eauto].
    + split; [eauto | intros _; destruct (size =? 2); eauto].
  - split_and!.
    + intros _. split; reflexivity.
    + split; [intros (l & Hl); discriminate | intros (x & Hx); discriminate].
    + split; [intros (l & Hl); discriminate | intros (x & Hx); discriminate].
Qed.

Lemma build_loss_metrics_missing_label_witness :
  let self :=
    @mkSelf example_framework subclass 1 None "click" [] []
            {[ "label" := 2 ]} [] None None None None in
  build_loss self = Raise (KeyError "click") /\
  build_metrics self = Raise (KeyError "click").
Proof.
  intros self.
  exact (proj1 (@build_loss_metrics_missing_label example_framework self)
               eq_refl).
Defined.

(** ** [seed_everything] *)

(** X16: [seed_everything] sets the TensorFlow seed and writes the seed
    in decimal to [PYTHONHASHSEED]; it leaves every other environment
    variable, the directories and the log alone; a second call overrides
    the first; and the seed can be read back from the variable, two seeds
    never giving the same text. *)
Theorem seed_everything_effects (seed seed' : Z) (w : World) :
  tf_random_seed (seed_everything seed w) = Some seed /\
  environ (seed_everything seed w) !! "PYTHONHASHSEED" = Some (pretty seed) /\
  (forall name, name <> "PYTHONHASHSEED" ->
     environ (seed_everything seed w) !! name = environ w !! name) /\
  directories (seed_everything seed w) = directories w /\
  absl_log_file (seed_everything seed w) = absl_log_file w /\
  log (seed_everything seed w) = log w /\
  seed_everything seed' (seed_everything seed w) = seed_everything seed' w /\
  (environ (seed_everything seed w) !! "PYTHONHASHSEED" =
   environ (seed_everything seed' w) !! "PYTHONHASHSEED" -> seed = seed').
Proof.
  unfold seed_everything, with_environ, with_seed. cbn. split_and!;
    try reflexivity.
  - apply lookup_insert_eq.
  - intros name Hname. by apply lookup_insert_ne.
  - by rewrite insert_insert_eq.
  - rewrite !lookup_insert_eq. intros [= Heq]. by apply (inj pretty).
Qed.

(** ** [create_train_data_iterator] *)

(** X17: [create_train_data_iterator] and the object.  A call that
    completes replaces both iterators whatever they were, so its result
    does not depend on what an earlier call (with any flags, completed or
    not) left.  When the training pipeline raises, the object is left as
    it was; when the validation pipeline raises, the training iterator is
    already assigned and the validation iterator is as before.  In every
    case no other attribute of the object changes. *)
Theorem create_train_data_iterator_overwrites `{fw : Framework}
    (FLAGS FLAGS' : Flags) (self : Self) :
  (forall self1,
     create_train_data_iterator FLAGS self = (Ok tt, self1) ->
     create_train_data_iterator FLAGS
       (snd (create_train_data_iterator FLAGS' self)) = (Ok tt, self1)) /\
  (forall e,
     tfrecord_pipeline (self_class self) FLAGS (train_data FLAGS)
                       (batch_size FLAGS) 1 true = Raise e ->
     create_train_data_iterator FLAGS self = (Raise e, self)) /\
  (forall train_it e,
     tfrecord_pipeline (self_class self) FLAGS (train_data FLAGS)
                       (batch_size FLAGS) 1 true = Ok train_it ->
     tfrecord_pipeline (self_class self) FLAGS (valid_data FLAGS)
                       (batch_size FLAGS) 1 false = Raise e ->
     create_train_data_iterator FLAGS self
     = (Raise e, set_train_iterator train_it self)) /\
  let self' := snd (create_train_data_iterator FLAGS self) in
  self_class self' = self_class self /\
  self_batch_size self' = self_batch_size self /\
  max_patient_passes self' = max_patient_passes self /\
  LABEL self' = LABEL self /\
  CATEGORY_FEATURES self' = CATEGORY_FEATURES self /\
  NUMERICAL_FEATURES self' = NUMERICAL_FEATURES self /\
  VOC_SIZE self' = VOC_SIZE self /\
  VARIABLE_FEATURES self' = VARIABLE_FEATURES self /\
  metrics_object self' = metrics_object self /\
  loss_object self' = loss_object self.
Proof.
  split_and!.
  - intros self1 Hcreated.
    apply create_train_data_iterator_inv in Hcreated
      as (train_it & valid_it & Htrain & Hvalid & ->).
    unfold create_train_data_iterator.
    destruct (tfrecord_pipeline _ FLAGS' (train_data FLAGS') _ _ _);
      cbn [self_class set_train_iterator snd];
      [destruct (tfrecord_pipeline _ FLAGS' (valid_data FLAGS') _ _ _) |];
      cbn [self_class set_train_iterator set_valid_iterator snd];
      rewrite Htrain; cbn [self_class set_train_iterator];
      rewrite Hvalid; destruct self; reflexivity.
  - intros e Htrain. unfold create_train_data_iterator. by rewrite Htrain.
  - intros train_it e Htrain Hvalid. unfold create_train_data_iterator.
    rewrite Htrain. cbn [self_class set_train_iterator]. by rewrite Hvalid.
  - unfold create_train_data_iterator.
    destruct (tfrecord_pipeline _ _ (train_data FLAGS) _ _ _);
      cbn [self_class set_train_iterator snd];
      [destruct (tfrecord_pipeline _ _ (valid_data FLAGS) _ _ _) |];
      destruct self; cbn; split_and!; reflexivity.
Qed.

Lemma create_train_data_iterator_overwrites_witness :
  exists self1,
    @create_train_data_iterator example_framework training_flags
      example_instance = (Ok tt, self1) /\
    @create_train_data_iterator example_framework training_flags
      (snd (@create_train_data_iterator example_framework
              (set_data (Some "train.tfrecord") None example_flags)
              example_instance))
    = (Ok tt, self1) /\
    @create_train_data_iterator example_framework example_flags
      example_instance
    = (Raise (ValueError
         "Attempt to convert a value (None) with an unsupported type (<class 'NoneType'>) to a Tensor."),
       example_instance).
Proof.
  destruct (@create_train_data_iterator example_framework training_flags
              example_instance) as [[[] |] self1] eqn:Hcreated;
    [| discriminate Hcreated].
  exists self1. split; [reflexivity |].
  destruct (@create_train_data_iterator_overwrites example_framework
              training_flags
              (set_data (Some "train.tfrecord") None example_flags)
              example_instance) as (Hagain & _).
  destruct (@create_train_data_iterator_overwrites example_framework
              example_flags example_flags example_instance)
    as (_ & Hfirst & _).
  split; [exact (Hagain self1 Hcreated) | apply Hfirst; reflexivity].
Defined.

(** ** The schedule over a run *)

(** Off the table one call returns the rate it was given. *)
Lemma lr_schedule_miss (epoch : Z) (lr : float) :
  epoch <> 3 -> epoch <> 6 -> epoch <> 9 -> epoch <> 12 ->
  lr_schedule epoch lr = Ok lr.
Proof.
  intros H3 H6 H9 H12. unfold lr_schedule.
  rewrite getitem_first. cbn [fst mbind result_bind].
  destruct (epoch <? 3); [reflexivity |].
  rewrite getitem_last. cbn [fst mbind result_bind].
  destruct (epoch >? 12); [reflexivity |].
  by apply lr_schedule_loop_miss.
Qed.

(** One more epoch moves the step function one epoch on. *)
Lemma lr_schedule_step (epoch : Z) (lr : float) :
  lr_schedule epoch (lr_step (epoch - 1) lr) = Ok (lr_step epoch lr).
Proof.
  destruct (decide (epoch = 3)) as [-> | H3]; [reflexivity |].
  destruct (decide (epoch = 6)) as [-> | H6]; [reflexivity |].
  destruct (decide (epoch = 9)) as [-> | H9]; [reflexivity |].
  destruct (decide (epoch = 12)) as [-> | H12]; [reflexivity |].
  rewrite lr_schedule_miss by assumption. f_equal. unfold lr_step.
  repeat match goal with
         | |- context [?a <? ?b] => destruct (Z.ltb_spec a b)
         end; try reflexivity; lia.
Qed.

(** X18: called at the epochs 0, 1, ..., n-1 in turn, each time on the
    rate the call before returned (as a scheduler callback does),
    [lr_schedule] never raises and yields the step function of the table:
    the initial rate before epoch 3, then 0.05 up to epoch 5, 0.01 up to
    epoch 8, 0.005 up to epoch 11, and 0.001 from epoch 12 on. *)
Theorem lr_after_is_step (n : nat) (lr : float) :
  lr_after n lr = Ok (lr_step (Z.of_nat n - 1) lr).
Proof.
  induction n as [| k IH].
  - reflexivity.
  - cbn [lr_after]. rewrite IH. cbn [mbind result_bind].
    replace (Z.of_nat (S k) - 1) with (Z.of_nat k) by lia.
    apply lr_schedule_step.
Qed.

(** ** [build_optimizer]: from the instance back to the flag *)

(** The optimizer [build_optimizer] returns names its flag value. *)
Lemma build_optimizer_inv (FLAGS : Flags) (o : Optimizer) :
  build_optimizer FLAGS = Ok o ->
  In (optimizer FLAGS, opt_class o)
     [ ("adam", Adam); ("adadelta", Adadelta); ("adagrad", Adagrad);
       ("lazyadam", LazyAdam); ("ftrl", Ftrl); ("sgd", SGD);
       ("RMSprop", RMSprop) ] /\
  opt_learning_rate o = learning_rate FLAGS.
Proof.
  unfold build_optimizer.
  repeat match goal with
         | |- context [String.eqb ?a ?b] =>
             destruct (String.eqb_spec a b) as [-> | ?]
         end; cbn; intros [= <-]; cbn; tauto.
Qed.

(** X19: the class of the optimizer determines the flag value and the
    flag value the class: two successful calls return optimizers of the
    same class exactly when their [optimizer] flags are equal; and the
    learning rate of the result is the [learning_rate] flag, untouched by
    [LR_SCHEDULE]. *)
Theorem build_optimizer_class_iff_name (FLAGS1 FLAGS2 : Flags)
    (o1 o2 : Optimizer) :
  build_optimizer FLAGS1 = Ok o1 ->
  build_optimizer FLAGS2 = Ok o2 ->
  (opt_class o1 = opt_class o2 <-> optimizer FLAGS1 = optimizer FLAGS2) /\
  opt_learning_rate o1 = learning_rate FLAGS1 /\
  opt_learning_rate o2 = learning_rate FLAGS2.
Proof.
  intros H1 H2.
  apply build_optimizer_inv in H1 as (Hin1 & Hlr1).
  apply build_optimizer_inv in H2 as (Hin2 & Hlr2).
  split_and!; [| assumption | assumption].
  destruct o1 as [c1 lr1], o2 as [c2 lr2]. cbn in *.
  decompose [or] Hin1; try contradiction;
    decompose [or] Hin2; try contradiction;
    repeat match goal with
           | E : (_, _) = (_, _) |- _ => injection E as <- <-
           end;
    split; intros; congruence.
Qed.

Lemma build_optimizer_class_iff_name_witness :
  (opt_class (mkOptimizer SGD 0.001%float)
   = opt_class (mkOptimizer Adam 0.001%float)
   <-> optimizer (set_optimizer "sgd" example_flags)
       = optimizer (set_optimizer "adam" example_flags)).
Proof.
  exact (proj1 (build_optimizer_class_iff_name
                  (set_optimizer "sgd" example_flags)
                  (set_optimizer "adam" example_flags)
                  (mkOptimizer SGD 0.001%float) (mkOptimizer Adam 0.001%float)
                  eq_refl eq_refl)).
Defined.

(** ** [NeuralFactorizationMachine]: failures and the layer sizes *)

(** [split(',')] gives one part more than there are commas, no part holds
    a comma, and joining the parts with commas gives the string back. *)
Lemma split_comma_length (s : string) :
  length (split_comma s) = S (count_commas s).
Proof.
  induction s as [| c rest IH]; [reflexivity |].
  cbn [split_comma count_commas]. destruct (Ascii.eqb c ","%char).
  - cbn. by rewrite IH.
  - destruct (split_comma rest) as [| head tail]; [discriminate IH |].
    exact IH.
Qed.

Lemma split_comma_join (s : string) :
  String.concat "," (split_comma s) = s.
Proof.
  induction s as [| c rest IH]; [reflexivity |].
  cbn [split_comma]. destruct (Ascii.eqb_spec c ","%char) as [-> | Hc].
  - pose proof (split_comma_length rest) as Hlen.
    destruct (split_comma rest) as [| head tail]; [discriminate Hlen |].
    cbn [String.concat] in *. rewrite IH. reflexivity.
  - pose proof (split_comma_length rest) as Hlen.
    destruct (split_comma rest) as [| head tail]; [discriminate Hlen |].
    rewrite <- IH. destruct tail as [| next tail]; reflexivity.
Qed.

Lemma split_comma_parts (s part : string) (c : ascii) :
  In part (split_comma s) -> In c (list_ascii_of_string part) -> c <> ","%char.
Proof.
  revert part. induction s as [| a rest IH]; intros part Hpart Hc.
  - destruct Hpart as [<- | []]. destruct Hc.
  - cbn [split_comma] in Hpart.
    destruct (Ascii.eqb_spec a ","%char) as [-> | Ha].
    + destruct Hpart as [<- | Hpart]; [destruct Hc | eauto].
    + destruct (split_comma rest) as [| head tail] eqn:Hsplit.
      * destruct Hpart as [<- | []]. destruct Hc as [<- | []]. exact Ha.
      * destruct Hpart as [<- | Hpart].
        -- destruct Hc as [<- | Hc]; [exact Ha |].
           apply (IH head); [by left | exact Hc].
        -- apply (IH part); [by right | exact Hc].
Qed.

(** The comprehension keeps one integer per part, and fails when [int]
    fails on a part. *)
Lemma mapM_length {A B} (f : A -> result B) (l : list A) (k : list B) :
  mapM f l = Ok k -> length k = length l.
Proof.
  revert k. induction l as [| x l IH]; intros k; cbn.
  - intros [= <-]. reflexivity.
  - destruct (f x) as [y |]; cbn; [| discriminate].
    destruct (mapM f l) as [k' |]; cbn; [| discriminate].
    intros [= <-]. cbn. by rewrite (IH k').
Qed.

Lemma mapM_raises {A B} (f : A -> result B) (l : list A) (x : A) (e : exn) :
  In x l -> f x = Raise e -> exists e', mapM f l = Raise e'.
Proof.
  induction l as [| y l IH]; intros Hin Hx; [destruct Hin |].
  cbn. destruct Hin as [-> | Hin].
  - rewrite Hx. eauto.
  - destruct (f y) as [z |]; cbn; [| eauto].
    destruct (IH Hin Hx) as (e' & ->). eauto.
Qed.

(** X20: Python's [split(',')] as [build] uses it on [deep_layers]: it
    returns one part more than the string has commas (so never an empty
    list, and [['']] for the empty string), no part contains a comma, and
    joining the parts with commas gives the string back. *)
Theorem split_comma_round_trip (s : string) :
  String.concat "," (split_comma s) = s /\
  length (split_comma s) = S (count_commas s) /\
  (forall part c, In part (split_comma s) ->
                  In c (list_ascii_of_string part) -> c <> ","%char) /\
  split_comma "" = [""].
Proof.
  split_and!.
  - apply split_comma_join.
  - apply split_comma_length.
  - apply split_comma_parts.
  - reflexivity.
Qed.

Section NFMFailures.
Context {tensor Layer : Type}.
Variable layer_call : Layer -> tensor -> result tensor.
Variable int : string -> result Z.
Variable build_fm : @NFM Layer -> result Layer.
Variable build_deep : @NFM Layer -> list Z -> result Layer.

Lemma build_parse_failure {S} (self : NFM) (input_shape : S) (e : exn) :
  mapM int (split_comma (deep_layers (nfm_flags self))) = Raise e ->
  build int build_fm build_deep self input_shape = (Raise e, self).
Proof. intros Hparse. unfold build. rewrite Hparse. reflexivity. Qed.

End NFMFailures.

(** X21: when [int] rejects one of the comma-separated parts of
    [deep_layers] (an empty part from a doubled or trailing comma, say),
    [build] raises and leaves the object as it was; neither builder has any
    say in the outcome. *)
Theorem build_bad_deep_layers {Layer S : Type} (int : string -> result Z)
    (build_fm build_fm' : @NFM Layer -> result Layer)
    (build_deep build_deep' : @NFM Layer -> list Z -> result Layer)
    (self : NFM) (input_shape : S) (part : string) (e : exn) :
  In part (split_comma (deep_layers (nfm_flags self))) ->
  int part = Raise e ->
  exists e',
    build int build_fm build_deep self input_shape = (Raise e', self) /\
    build int build_fm' build_deep' self input_shape = (Raise e', self).
Proof.
  intros Hpart Hint.
  destruct (mapM_raises int _ part e Hpart Hint) as (e' & Hparse).
  exists e'. split; by apply build_parse_failure.
Qed.

Lemma build_bad_deep_layers_witness :
  let self := @mkNFM (Z -> Z) (set_epochs 1 (declared_defaults "t" 0.001%float "32,,16"))
                     None None in
  exists e',
    build example_int example_build_fm example_build_deep self tt
    = (Raise e', self) /\
    build example_int (fun _ => Raise IndexError) (fun _ _ => Raise IndexError)
          self tt
    = (Raise e', self).
Proof.
  intros self.
  apply (build_bad_deep_layers example_int example_build_fm
           (fun _ => Raise IndexError) example_build_deep
           (fun _ _ => Raise IndexError) self tt ""
           (ValueError "invalid literal for int() with base 10")).
  - cbn. tauto.
  - reflexivity.
Defined.

(** X22: when a builder fails in [build].  If [build_fm] raises, [build]
    raises the same and the object is unchanged.  If [build_fm] returns and
    [build_deep] raises, [build] raises the same, and the object is left
    with the new [B_Interaction_Layer] already assigned and its
    [Hidden_Layers] as before. *)
Theorem build_builder_failure {Layer S : Type} (int : string -> result Z)
    (build_fm : @NFM Layer -> result Layer)
    (build_deep : @NFM Layer -> list Z -> result Layer)
    (self : NFM) (input_shape : S) (hidden : list Z) (e : exn) :
  mapM int (split_comma (deep_layers (nfm_flags self))) = Ok hidden ->
  (build_fm self = Raise e ->
     build int build_fm build_deep self input_shape = (Raise e, self)) /\
  (forall fm,
     build_fm self = Ok fm ->
     build_deep (set_B_Interaction_Layer fm self) hidden = Raise e ->
     build int build_fm build_deep self input_shape =
       (Raise e, mkNFM (nfm_flags self) (Some fm) (Hidden_Layers self))).
Proof.
  intros Hparse. unfold build. rewrite Hparse. split.
  - intros ->. reflexivity.
  - intros fm -> Hdeep. rewrite Hdeep. reflexivity.
Qed.

Lemma build_builder_failure_witness :
  build example_int (fun _ => Raise IndexError) example_build_deep
        example_nfm tt
  = (Raise IndexError, example_nfm)
  /\ build example_int example_build_fm (fun _ _ => Raise IndexError)
           example_nfm tt
     = (Raise IndexError,
        mkNFM (nfm_flags example_nfm) (Some (fun x => x * x))
              (Hidden_Layers example_nfm)).
Proof.
  split.
  - apply (proj1 (build_builder_failure example_int (fun _ => Raise IndexError)
                    example_build_deep example_nfm tt [32; 16] IndexError
                    eq_refl)).
    reflexivity.
  - apply (proj2 (build_builder_failure example_int example_build_fm
                    (fun _ _ => Raise IndexError) example_nfm tt [32; 16]
                    IndexError eq_refl) (fun x => x * x)); reflexivity.
Defined.

(** X23: [build_network] on an object that [build] has not completed.
    Without [B_Interaction_Layer] it raises [AttributeError] for it and
    calls no layer.  With it but without [Hidden_Layers] it first calls the
    interaction layer, raising what that raises, and only then raises
    [AttributeError] for [Hidden_Layers]. *)
Theorem build_network_unbuilt {tensor Layer T : Type}
    (layer_call : Layer -> tensor -> result tensor)
    (self : NFM) (features : tensor) (is_training : option T) :
  (B_Interaction_Layer self = None ->
     build_network layer_call self features is_training =
       Raise (AttributeError "B_Interaction_Layer")) /\
  (forall b,
     B_Interaction_Layer self = Some b ->
     Hidden_Layers self = None ->
     build_network layer_call self features is_training =
       match layer_call b features with
       | Ok _ => Raise (AttributeError "Hidden_Layers")
       | Raise e => Raise e
       end).
Proof.
  unfold build_network. split.
  - intros ->. reflexivity.
  - intros b -> ->. cbn. destruct (layer_call b features); reflexivity.
Qed.

Lemma build_network_unbuilt_witness :
  build_network example_layer_call example_nfm 3 (Some true)
  = Raise (AttributeError "B_Interaction_Layer")
  /\ build_network example_layer_call
       (set_B_Interaction_Layer (fun x => x * x) example_nfm) 3 (Some true)
     = Raise (AttributeError "Hidden_Layers").
Proof.
  split.
  - apply (proj1 (build_network_unbuilt example_layer_call example_nfm 3
                    (Some true))).
    reflexivity.
  - apply (proj2 (build_network_unbuilt example_layer_call
                    (set_B_Interaction_Layer (fun x => x * x) example_nfm) 3
                    (Some true)) (fun x => x * x)); reflexivity.
Defined.

Lemma mapM_Forall2 {A B} (f : A -> result B) (l : list A) (k : list B) :
  mapM f l = Ok k -> Forall2 (fun x y => f x = Ok y) l k.
Proof.
  revert k. induction l as [| x l IH]; intros k; cbn.
  - intros [= <-]. constructor.
  - destruct (f x) as [y |] eqn:Hx; cbn; [| discriminate].
    destruct (mapM f l) as [k' |]; cbn; [| discriminate].
    intros [= <-]. constructor; [exact Hx | by apply IH].
Qed.

(** X24: the layer sizes [build] passes on.  When [build] completes,
    [build_deep] was called with one integer per comma-separated part of
    [deep_layers], each the [int] of its part, in the order of the string:
    one size more than there are commas.  The flags of the object are not
    changed. *)
Theorem build_hidden_sizes {Layer Shape : Type} (int : string -> result Z)
    (build_fm : @NFM Layer -> result Layer)
    (build_deep : @NFM Layer -> list Z -> result Layer)
    (self self' : NFM) (input_shape : Shape) :
  build int build_fm build_deep self input_shape = (Ok tt, self') ->
  exists hidden fm deep,
    build_deep (set_B_Interaction_Layer fm self) hidden = Ok deep /\
    Hidden_Layers self' = Some deep /\
    Forall2 (fun part size => int part = Ok size)
            (split_comma (deep_layers (nfm_flags self))) hidden /\
    length hidden = S (count_commas (deep_layers (nfm_flags self))) /\
    nfm_flags self' = nfm_flags self.
Proof.
  intros Hbuild.
  apply build_completes in Hbuild as (hidden & fm & deep & Hh & Hfm & Hdeep & ->).
  exists hidden, fm, deep. split_and!.
  - exact Hdeep.
  - reflexivity.
  - by apply mapM_Forall2.
  - rewrite (mapM_length _ _ _ Hh). apply split_comma_length.
  - reflexivity.
Qed.

Lemma build_hidden_sizes_witness :
  exists hidden fm deep,
    example_build_deep (set_B_Interaction_Layer fm example_nfm) hidden = Ok deep /\
    Hidden_Layers
      (set_Hidden_Layers (fun x => x + 48)
         (set_B_Interaction_Layer (fun x => x * x) example_nfm)) = Some deep /\
    Forall2 (fun part size => example_int part = Ok size)
            (split_comma (deep_layers (nfm_flags example_nfm))) hidden /\
    length hidden = S (count_commas (deep_layers (nfm_flags example_nfm))) /\
    nfm_flags
      (set_Hidden_Layers (fun x => x + 48)
         (set_B_Interaction_Layer (fun x => x * x) example_nfm))
    = nfm_flags example_nfm.
Proof.
  apply (build_hidden_sizes example_int example_build_fm example_build_deep
           example_nfm _ tt).
  reflexivity.
Defined.
